(** * The task-assistant agent of [ai-agent/agent.py]

    A shallow embedding of the intent classifier
    ([Agent._identify_mcp_tool_and_params]), the tool dispatcher
    ([Agent._execute_mcp_tool]) and the orchestrator ([Agent.process]),
    followed by the properties stated about them.

    Python [str] values are modelled by [string]: sequences of code points
    below 256 (Latin-1).  On that range [str.lower], [str.isspace] and the
    regular-expression class [\d] are modelled exactly.  Python's unbounded
    [int] is [Z]; the conversions between [str] and [int] raise [ValueError]
    beyond CPython's default limit of 4300 digits.  A [dict] is a [gmap];
    exceptions are values of [exn] carried by [outcome]. *)

From Stdlib Require Import ZArith Ascii String DecimalString.
From Stdlib Require DecimalPos DecimalZ.
From stdpp Require Import base option list gmap strings.

Local Open Scope Z_scope.

(** ** Python strings *)

Module PyStr.

Definition code (c : ascii) : nat := nat_of_ascii c.

(** Cased upper-case letters below 256: [A-Z], and [U+00C0 .. U+00DE]
    except the multiplication sign [U+00D7]. *)
Definition isupper_char (c : ascii) : bool :=
  let n := code c in
  ((65 <=? n) && (n <=? 90) ||
   (192 <=? n) && (n <=? 222) && negb (n =? 215))%nat.

Definition lower_char (c : ascii) : ascii :=
  if isupper_char c then ascii_of_nat (code c + 32) else c.

(** [s.lower()] *)
Fixpoint lower (s : string) : string :=
  match s with
  | EmptyString => EmptyString
  | String c s' => String (lower_char c) (lower s')
  end.

(** [str.isspace] on one character: TAB..CR, FS..US, space, NEL, NBSP. *)
Definition isspace_char (c : ascii) : bool :=
  let n := code c in
  ((9 <=? n) && (n <=? 13) || (28 <=? n) && (n <=? 32) ||
   (n =? 133) || (n =? 160))%nat.

(** The class [\d] of [re] on [str] patterns: decimal digits. *)
Definition isdigit_char (c : ascii) : bool :=
  let n := code c in ((48 <=? n) && (n <=? 57))%nat.

Definition is_empty (s : string) : bool :=
  match s with EmptyString => true | String _ _ => false end.

(** [s.startswith(p)] *)
Fixpoint startswith (p s : string) : bool :=
  match p, s with
  | EmptyString, _ => true
  | String _ _, EmptyString => false
  | String a p', String b s' =>
      if decide (a = b) then startswith p' s' else false
  end.

(** [s[n:]] *)
Fixpoint drop (n : nat) (s : string) : string :=
  match n, s with
  | O, _ => s
  | S _, EmptyString => EmptyString
  | S n', String _ s' => drop n' s'
  end.

(** [w in s] *)
Fixpoint contains (w s : string) : bool :=
  startswith w s ||
  match s with
  | EmptyString => false
  | String _ s' => contains w s'
  end.

(** The leftmost occurrence of [w] in [s]: the text before it and the text
    after it. *)
Fixpoint partition (w s : string) : option (string * string) :=
  if startswith w s then Some (EmptyString, drop (String.length w) s)
  else match s with
       | EmptyString => None
       | String c s' =>
           match partition w s' with
           | Some (a, b) => Some (String c a, b)
           | None => None
           end
       end.

(** [s.split(w, 1)] for a non-empty separator [w]. *)
Definition split1 (s w : string) : list string :=
  match partition w s with
  | Some (a, b) => [a; b]
  | None => [s]
  end.

(** [s.lstrip()], [s.rstrip()], [s.strip()] *)
Fixpoint lstrip (s : string) : string :=
  match s with
  | EmptyString => EmptyString
  | String c s' => if isspace_char c then lstrip s' else s
  end.

Fixpoint rstrip (s : string) : string :=
  match s with
  | EmptyString => EmptyString
  | String c s' =>
      let r := rstrip s' in
      if isspace_char c && is_empty r then EmptyString else String c r
  end.

Definition strip (s : string) : string := rstrip (lstrip s).

(** [s.removeprefix(p)] *)
Definition removeprefix (p s : string) : string :=
  if startswith p s then drop (String.length p) s else s.

(** [re.findall(r"\d+", s)]: the maximal runs of digits, left to right.
    [cur] is the run being read. *)
Fixpoint findall_digits_from (cur : string) (s : string) : list string :=
  match s with
  | EmptyString => if is_empty cur then [] else [cur]
  | String c s' =>
      if isdigit_char c
      then findall_digits_from (cur +:+ String c EmptyString) s'
      else if is_empty cur then findall_digits_from EmptyString s'
           else cur :: findall_digits_from EmptyString s'
  end.

Definition findall_digits (s : string) : list string :=
  findall_digits_from EmptyString s.

(** The number a string of decimal digits denotes. *)
Definition digit_value (c : ascii) : Z := Z.of_nat (code c - 48).

Fixpoint int_from (acc : Z) (s : string) : Z :=
  match s with
  | EmptyString => acc
  | String c s' => int_from (10 * acc + digit_value c) s'
  end.

Definition decimal_value (s : string) : Z := int_from 0 s.

(** [any(w in s for w in ws)] *)
Definition any_in (ws : list string) (s : string) : bool :=
  existsb (fun w => contains w s) ws.

End PyStr.

Import PyStr.

(** ** Values, exceptions, outcomes *)

(** The values that occur in parameter mappings and JSON request bodies. *)
Inductive value :=
| VStr (s : string)
| VInt (n : Z)
| VBool (b : bool).

#[global] Instance value_eq_dec : EqDecision value.
Proof. solve_decision. Defined.

(** Truthiness ([if v:]). *)
Definition truthy (v : value) : bool :=
  match v with
  | VStr s => negb (is_empty s)
  | VInt n => negb (n =? 0)
  | VBool b => b
  end.

(** Exceptions (instances of Python's [Exception]).  [ExternalError] stands
    for whatever the HTTP client, the JSON decoder or the model client raise;
    it carries their string representation. *)
Inductive exn :=
| KeyError (key : string)
| IndexError (msg : string)
| ValueError (msg : string)
| ExternalError (msg : string).

(** [str(e)]: a [KeyError] prints the [repr] of its key. *)
Definition str_exn (e : exn) : string :=
  match e with
  | KeyError k => "'" +:+ k +:+ "'"
  | IndexError m => m
  | ValueError m => m
  | ExternalError m => m
  end.

Inductive outcome (A : Type) :=
| Ret (a : A)
| Raise (e : exn).
Arguments Ret {A} a.
Arguments Raise {A} e.

Definition obind {A B} (m : outcome A) (k : A -> outcome B) : outcome B :=
  match m with
  | Ret a => k a
  | Raise e => Raise e
  end.

(** [l[i]] on a Python list. *)
Definition item {A} (l : list A) (i : nat) : outcome A :=
  match l !! i with
  | Some a => Ret a
  | None => Raise (IndexError "list index out of range")
  end.

(** ** Conversions between [str] and [int] *)

(** The default of [sys.get_int_max_str_digits()]: CPython refuses to convert
    between [str] and [int] in base 10 when more digits are involved. *)
Definition int_max_str_digits : nat := 4300.
Arguments int_max_str_digits : simpl never.

(** The decimal numeral of a natural number. *)
Definition nat_numeral (n : nat) : string :=
  NilZero.string_of_uint (Nat.to_uint n).

(** [int(s)] for a string of decimal digits: all the digit characters count
    towards the limit, leading zeros included. *)
Definition int (s : string) : outcome Z :=
  if (int_max_str_digits <? String.length s)%nat then
    Raise (ValueError
      ("Exceeds the limit (4300 digits) for integer string conversion: value has "
       +:+ nat_numeral (String.length s)
       +:+ " digits; use sys.set_int_max_str_digits() to increase the limit"))
  else Ret (decimal_value s).

(** [str(n)] for an integer: the digits of the numeral count towards the
    limit, the sign does not. *)
Definition str_int (n : Z) : outcome string :=
  if (int_max_str_digits <?
        String.length (NilZero.string_of_int (Z.to_int (Z.abs n))))%nat then
    Raise (ValueError
      "Exceeds the limit (4300 digits) for integer string conversion; use sys.set_int_max_str_digits() to increase the limit")
  else Ret (NilZero.string_of_int (Z.to_int n)).

(** [str(v)], as used by f-strings. *)
Definition py_str (v : value) : outcome string :=
  match v with
  | VStr s => Ret s
  | VInt n => str_int n
  | VBool true => Ret "True"
  | VBool false => Ret "False"
  end.

(** ** The intent classifier *)

Definition create_keywords : list string := ["add"; "create"; "make"; "new"].
Definition list_keywords : list string :=
  ["list"; "show"; "view"; "display"; "see"; "check"].
Definition delete_keywords : list string := ["delete"; "remove"].
Definition update_keywords : list string := ["update"; "complete"; "done"].

(** The [for w in [...]] loop of the create branch: [Ret None] when the loop
    ends without returning. *)
Fixpoint create_loop (ws : list string) (text user_input : string)
  : outcome (option (string * gmap string value)) :=
  match ws with
  | [] => Ret None
  | w :: ws' =>
      if contains w text then
        obind (item (split1 text w) 1) (fun rest =>
        let title := strip rest in
        let title := strip (removeprefix "to" (removeprefix "task" title)) in
        Ret (Some ("create_task",
                   {[ "title" := VStr (if is_empty title then user_input
                                       else title) ]})))
      else create_loop ws' text user_input
  end.

(** [int(nums[0]) if nums else 1] *)
Definition first_id (nums : list string) : outcome Z :=
  match nums with
  | n :: _ => int n
  | [] => Ret 1
  end.

Definition _identify_mcp_tool_and_params (user_input user_id : string)
  : outcome (option string * option (gmap string value)) :=
  let text := lower user_input in
  obind (if any_in create_keywords text
         then create_loop create_keywords text user_input
         else Ret None) (fun created =>
  match created with
  | Some (name, params) => Ret (Some name, Some params)
  | None =>
      if any_in list_keywords text || contains "my tasks" text then
        Ret (Some "get_tasks", Some {[ "user_id" := VStr user_id ]})
      else if any_in delete_keywords text then
        let nums := findall_digits user_input in
        obind (first_id nums) (fun task_id =>
        Ret (Some "delete_task", Some {[ "task_id" := VInt task_id ]}))
      else if any_in update_keywords text then
        let nums := findall_digits user_input in
        obind (first_id nums) (fun task_id =>
        Ret (Some "update_task",
             Some (<[ "task_id" := VInt task_id ]>
                   {[ "status" := VStr "completed" ]})))
      else Ret (None, None)
  end).

(** ** The outside world: backend, model API, and the trace of calls *)

Inductive http_method := POST | GET | PUT | DELETE.

Record request := {
  method : http_method;
  url : string;
  headers : gmap string string;
  json_body : option (gmap string value)
}.

(** A decoded JSON document. *)
#[local] Set Warnings "-register-all".
Inductive json_value :=
| JNull
| JBool (b : bool)
| JNum (n : Z)
| JStr (s : string)
| JArr (items : list json_value)
| JObj (fields : list (string * json_value)).

(** [not tasks] is the negation of this. *)
Definition json_truthy (j : json_value) : bool :=
  match j with
  | JNull => false
  | JBool b => b
  | JNum n => negb (n =? 0)
  | JStr s => negb (is_empty s)
  | JArr items => match items with [] => false | _ :: _ => true end
  | JObj fields => match fields with [] => false | _ :: _ => true end
  end.

(** What the code reads of an [httpx] response: [r.status_code], [r.text] and
    [r.json()], which raises when the body is not JSON. *)
Record response := {
  status_code : Z;
  text : string;
  json : outcome json_value
}.

Inductive event :=
| HttpCall (req : request)
| ModelCall (model prompt : string).

(** The record [{"name": ..., "arguments": ...}] returned to the caller. *)
Record ToolCall := {
  name : string;
  arguments : gmap string value
}.

(** Computations that may raise and that append to the trace of external
    calls.  An exception keeps the calls made before it. *)
Definition M (A : Type) : Type := list event -> outcome A * list event.

Definition ret {A} (a : A) : M A := fun tr => (Ret a, tr).

Definition bind {A B} (m : M A) (k : A -> M B) : M B :=
  fun tr =>
    match m tr with
    | (Ret a, tr') => k a tr'
    | (Raise e, tr') => (Raise e, tr')
    end.

Definition lift {A} (o : outcome A) : M A := fun tr => (o, tr).

Notation "'do' x <- m ; k" := (bind m (fun x => k))
  (at level 10, x name, m at level 100, k at level 200).

(** [params[key]] *)
Definition getitem (params : gmap string value) (key : string) : outcome value :=
  match params !! key with
  | Some v => Ret v
  | None => Raise (KeyError key)
  end.

(** [a or d] for an optional string. *)
Definition str_or (a : option string) (d : string) : string :=
  match a with
  | Some s => if is_empty s then d else s
  | None => d
  end.

Definition nl : string := String "010"%char EmptyString.
Definition dquote : string := String "034"%char EmptyString.

Definition MODEL_NAME : string := "gpt-4o-mini".

Definition system_prompt : string :=
  "You are a helpful productivity assistant that helps users manage their tasks through natural language." +:+ nl +:+
  nl +:+
  "Your capabilities include:" +:+ nl +:+
  "1. Adding new tasks" +:+ nl +:+
  "2. Listing existing tasks" +:+ nl +:+
  "3. Updating tasks" +:+ nl +:+
  "4. Deleting tasks" +:+ nl +:+
  nl +:+
  "Always respond in a helpful and friendly manner." +:+ nl.

Definition tool_prompt (user_input tool_result : string) : string :=
  nl +:+ "User request: " +:+ dquote +:+ user_input +:+ dquote +:+ nl +:+
  nl +:+
  "Tool result:" +:+ nl +:+
  tool_result +:+ nl +:+
  nl +:+
  "Reply politely and clearly to the user." +:+ nl.

Definition chat_prompt (user_input : string) : string :=
  nl +:+ system_prompt +:+ nl +:+
  nl +:+
  "User said: " +:+ dquote +:+ user_input +:+ dquote +:+ nl.

Definition apology (e : exn) : string :=
  "I'm sorry, I encountered an error: " +:+ str_exn e.

Section Agent.

(** [os.getenv("BACKEND_BASE_URL", "http://localhost:8000")] *)
Variable BACKEND_BASE_URL : string.

(** The backend as seen through the HTTP client: a response, or an
    exception of the transport. *)
Variable backend : request -> outcome response.

(** [client.chat.completions.create(model=..., messages=[user prompt])]
    followed by [.choices[0].message.content]. *)
Variable chat_completion : string -> string -> outcome string.

Definition http_send (m : http_method) (u : string)
    (body : option (gmap string value)) (h : gmap string string) : M response :=
  fun tr =>
    let req := {| method := m; url := u; headers := h; json_body := body |} in
    (backend req, tr ++ [HttpCall req]).

Definition model_call (model prompt : string) : M string :=
  fun tr => (chat_completion model prompt, tr ++ [ModelCall model prompt]).

(** *** The tool dispatcher *)

(** Lines 129-132: the headers of every request. *)
Definition request_headers (params : gmap string value)
  : outcome (gmap string string) :=
  let session_token := default (VStr EmptyString) (params !! "session_token") in
  let headers : gmap string string :=
    {[ "Content-Type" := "application/json" ]} in
  if truthy session_token
  then obind (py_str session_token) (fun token_text =>
       Ret (<[ "Authorization" := "Bearer " +:+ token_text ]> headers))
  else Ret headers.

Definition _execute_mcp_tool (tool_name : string) (params : gmap string value)
  : M string :=
  do headers <- lift (request_headers params);
  if decide (tool_name = "create_task") then
    let task_data : gmap string value :=
      <[ "title" := default (VStr EmptyString) (params !! "title") ]>
      {[ "description" := default (VStr EmptyString) (params !! "description") ]} in
    do r <- http_send POST (BACKEND_BASE_URL +:+ "/api/tasks/")
              (Some task_data) headers;
    ret (if (status_code r =? 200) || (status_code r =? 201)
         then "Task added successfully." else text r)
  else if decide (tool_name = "get_tasks") then
    do r <- http_send GET (BACKEND_BASE_URL +:+ "/api/tasks/") None headers;
    if status_code r =? 200 then
      do tasks <- lift (json r);
      if negb (json_truthy tasks)
      then ret "No tasks found for you. Feel free to add one!"
      else ret (text r)
    else ret (text r)
  else if decide (tool_name = "update_task") then
    let task_data : gmap string value := {[ "completed" := VBool true ]} in
    let task_data :=
      match params !! "title" with
      | Some v => <[ "title" := v ]> task_data
      | None => task_data
      end in
    let task_data :=
      match params !! "description" with
      | Some v => <[ "description" := v ]> task_data
      | None => task_data
      end in
    do task_id <- lift (getitem params "task_id");
    do id_text <- lift (py_str task_id);
    do r <- http_send PUT (BACKEND_BASE_URL +:+ "/api/tasks/" +:+ id_text)
              (Some task_data) headers;
    ret (if status_code r =? 200
         then "Task updated successfully." else text r)
  else if decide (tool_name = "delete_task") then
    do task_id <- lift (getitem params "task_id");
    do id_text <- lift (py_str task_id);
    do r <- http_send DELETE (BACKEND_BASE_URL +:+ "/api/tasks/" +:+ id_text)
              None headers;
    ret (if status_code r =? 200
         then "Task deleted successfully." else text r)
  else ret "Unknown action".

(** *** The orchestrator *)

(** The chat path: lines 81-92. *)
Definition chat_path (user_input : string) : M (string * list ToolCall) :=
  do content <- model_call MODEL_NAME (chat_prompt user_input);
  ret (content, []).

(** The body of the [try] block of [process]. *)
Definition process_try (user_input : string)
    (conversation_history : list (gmap string string))
    (user_id : string) (conversation_id auth_token : option string)
  : M (string * list ToolCall) :=
  do identified <- lift (_identify_mcp_tool_and_params user_input user_id);
  match identified with
  | (Some tool_name, Some params) =>
      if negb (is_empty tool_name) && negb (bool_decide (params = ∅)) then
        let params :=
          <[ "session_token" := VStr (str_or auth_token EmptyString) ]> params in
        let tool_call := {| name := tool_name; arguments := params |} in
        do tool_result <- _execute_mcp_tool tool_name params;
        do content <- model_call MODEL_NAME (tool_prompt user_input tool_result);
        ret (content, [tool_call])
      else chat_path user_input
  | _ => chat_path user_input
  end.

(** [process]: the [try] body, with [except Exception as e] turning an
    exception into the apology and an empty list of tool calls. *)
Definition process (user_input : string)
    (conversation_history : list (gmap string string))
    (user_id : string) (conversation_id auth_token : option string)
    (tr : list event) : (string * list ToolCall) * list event :=
  match process_try user_input conversation_history user_id
          conversation_id auth_token tr with
  | (Ret r, tr') => (r, tr')
  | (Raise e, tr') => ((apology e, []), tr')
  end.

(** The module-level entry point (lines 177-186): it hands its arguments to
    [process] of the one [Agent] instance, whose only attribute is the constant
    [system_prompt]. *)
Definition process_user_input (user_input : string)
    (conversation_history : list (gmap string string))
    (user_id : string) (conversation_id auth_token : option string)
    (tr : list event) : (string * list ToolCall) * list event :=
  process user_input conversation_history user_id conversation_id auth_token tr.

End Agent.

(** * Vocabulary of the properties *)

(** No character of [s] is an upper-case letter. *)
Fixpoint no_upper (s : string) : bool :=
  match s with
  | EmptyString => true
  | String c s' => negb (isupper_char c) && no_upper s'
  end.

Fixpoint all_digits (s : string) : bool :=
  match s with
  | EmptyString => true
  | String c s' => isdigit_char c && all_digits s'
  end.

Fixpoint no_digits (s : string) : bool :=
  match s with
  | EmptyString => true
  | String c s' => negb (isdigit_char c) && no_digits s'
  end.

(** [s] is empty or begins with a character that is not a digit. *)
Definition not_digit_start (s : string) : bool :=
  match s with
  | EmptyString => true
  | String c _ => negb (isdigit_char c)
  end.

(** White space only; not beginning, not ending with white space. *)
Fixpoint all_space (s : string) : bool :=
  match s with
  | EmptyString => true
  | String c s' => isspace_char c && all_space s'
  end.

Definition not_space_start (s : string) : bool :=
  match s with
  | EmptyString => true
  | String c _ => negb (isspace_char c)
  end.

Fixpoint not_space_end (s : string) : bool :=
  match s with
  | EmptyString => true
  | String c EmptyString => negb (isspace_char c)
  | String _ s' => not_space_end s'
  end.

(** [run] is the first run of decimal digits of [s]: a non-empty maximal block
    of digits with no digit before it. *)
Definition first_digit_run (s run : string) : Prop :=
  exists pre post,
    s = pre +:+ run +:+ post /\
    no_digits pre = true /\
    run <> EmptyString /\ all_digits run = true /\
    not_digit_start post = true.

(** The task identifier read off an input: the value of its first run of
    digits, or 1 when it has no digit. *)
Definition extracted_id (s : string) (n : Z) : Prop :=
  (no_digits s = true /\ n = 1) \/
  (exists run, first_digit_run s run /\ n = decimal_value run).

(** The first run of digits of [s], if there is one, is within the limit of
    [int]: the first string that [re.findall] returns has at most 4300
    characters. *)
Definition first_run_fits (s : string) : bool :=
  match findall_digits s with
  | run :: _ => (String.length run <=? int_max_str_digits)%nat
  | [] => true
  end.

(** [str(v)] returns. *)
Definition formats (v : value) : bool :=
  match py_str v with
  | Ret _ => true
  | Raise _ => false
  end.

(** A numeral without a superfluous leading zero. *)
Definition no_leading_zero (s : string) : bool :=
  match s with
  | String c (String _ _) => negb (Ascii.eqb c "0")
  | _ => true
  end.

(** [w] is the first keyword of [ws], in list order, that occurs in [t]. *)
Definition first_keyword (ws : list string) (t w : string) : Prop :=
  exists i : nat,
    ws !! i = Some w /\ contains w t = true /\
    forall (j : nat) (w' : string),
      (j < i)%nat -> ws !! j = Some w' -> contains w' t = false.

(** [t = pre +:+ w +:+ post] cuts [t] at the first occurrence of [w]. *)
Definition first_occurrence (w t pre post : string) : Prop :=
  t = pre +:+ w +:+ post /\
  forall pre' post' : string,
    t = pre' +:+ w +:+ post' -> (String.length pre <= String.length pre')%nat.

(** The clean-up of the text that follows the keyword. *)
Definition clean_title (rest : string) : string :=
  strip (removeprefix "to" (removeprefix "task" (strip rest))).

(** The operation a classification result names, if any. *)
Definition operation_of
    (r : outcome (option string * option (gmap string value))) : option string :=
  match r with
  | Ret (op, _) => op
  | Raise _ => None
  end.

(** The list-branch test of the classifier. *)
Definition wants_list (t : string) : bool :=
  any_in list_keywords t || contains "my tasks" t.

(** [s] begins with the whole word [p]: [p] followed by white space or by the
    end of [s]. *)
Definition starts_with_word (p s : string) : bool :=
  startswith p s &&
  match drop (String.length p) s with
  | EmptyString => true
  | String c _ => isspace_char c
  end.

(** [s] without its leading word [task] or [to], if it begins with one. *)
Definition strip_leading_token (s : string) : string :=
  if starts_with_word "task" s then drop 4 s
  else if starts_with_word "to" s then drop 2 s
  else s.

(** [s] does not begin with [task] or [to] as the beginning of a longer
    word. *)
Definition whole_words_only (s : string) : bool :=
  if startswith "task" s then starts_with_word "task" s
  else if startswith "to" s then starts_with_word "to" s
  else true.

(** The create title as the specification words it: the part of the raw input
    that follows the place where the keyword was matched (case-insensitively),
    without surrounding white space and without a leading token [task] or
    [to], or the raw input when nothing remains. *)
Definition spec_create_title (user_input : string) : option string :=
  let t := lower user_input in
  match List.find (fun w => contains w t) create_keywords with
  | Some w =>
      match partition w t with
      | Some (pre, _) =>
          let rest := drop (String.length pre + String.length w) user_input in
          let title := strip (strip_leading_token (strip rest)) in
          Some (if is_empty title then user_input else title)
      | None => None
      end
  | None => None
  end.

(** The operations the dispatcher knows. *)
Definition known_operations : list string :=
  ["create_task"; "get_tasks"; "update_task"; "delete_task"].

(** The success condition of each operation, on the response status. *)
Definition success_status (tool_name : string) (status : Z) : bool :=
  if decide (tool_name = "create_task") then (status =? 200) || (status =? 201)
  else status =? 200.

(** The fixed success message of the operations that have one. *)
Definition success_message (tool_name : string) : string :=
  if decide (tool_name = "create_task") then "Task added successfully."
  else if decide (tool_name = "update_task") then "Task updated successfully."
  else "Task deleted successfully.".

(** What the dispatcher makes of a response [r]. *)
Definition result_of_response (tool_name : string) (r : response) : outcome string :=
  if decide (tool_name = "get_tasks") then
    if status_code r =? 200 then
      obind (json r) (fun tasks =>
        Ret (if json_truthy tasks then text r
             else "No tasks found for you. Feel free to add one!"))
    else Ret (text r)
  else
    Ret (if success_status tool_name (status_code r)
         then success_message tool_name else text r).

(** The session token of a parameter mapping is absent ([None]) or is the
    string [t] ([Some t]). *)
Definition token_is (params : gmap string value) (tok : option string) : Prop :=
  params !! "session_token" = VStr <$> tok.

(** The [Authorization] header that goes with a session token. *)
Definition bearer (tok : option string) : option string :=
  match tok with
  | Some t => if is_empty t then None else Some ("Bearer " +:+ t)
  | None => None
  end.

(** ** Vocabulary of the further properties *)

(** The JSON body of an update request (lines 155-159). *)
Definition update_body (params : gmap string value) : gmap string value :=
  let task_data : gmap string value := {[ "completed" := VBool true ]} in
  let task_data :=
    match params !! "title" with
    | Some v => <[ "title" := v ]> task_data
    | None => task_data
    end in
  match params !! "description" with
  | Some v => <[ "description" := v ]> task_data
  | None => task_data
  end.

(** What the dispatcher does before any call: it raises, or it has no request
    to send (unknown operation), or it has built the request to send. *)
Definition request_of (BASE tool_name : string) (params : gmap string value)
  : outcome (option request) :=
  obind (request_headers params) (fun headers =>
  if decide (tool_name = "create_task") then
    Ret (Some {| method := POST;
                 url := BASE +:+ "/api/tasks/";
                 headers := headers;
                 json_body :=
                   Some (<[ "title" := default (VStr EmptyString) (params !! "title") ]>
                         {[ "description" :=
                              default (VStr EmptyString) (params !! "description") ]}) |})
  else if decide (tool_name = "get_tasks") then
    Ret (Some {| method := GET;
                 url := BASE +:+ "/api/tasks/";
                 headers := headers;
                 json_body := None |})
  else if decide (tool_name = "update_task") then
    obind (getitem params "task_id") (fun task_id =>
    obind (py_str task_id) (fun id_text =>
    Ret (Some {| method := PUT;
                 url := BASE +:+ "/api/tasks/" +:+ id_text;
                 headers := headers;
                 json_body := Some (update_body params) |})))
  else if decide (tool_name = "delete_task") then
    obind (getitem params "task_id") (fun task_id =>
    obind (py_str task_id) (fun id_text =>
    Ret (Some {| method := DELETE;
                 url := BASE +:+ "/api/tasks/" +:+ id_text;
                 headers := headers;
                 json_body := None |})))
  else Ret None).

(** The parameters an operation reads.  The session token is read for every
    operation name: the headers are built (lines 129-132) before the name is
    looked at. *)
Definition relevant_keys (tool_name : string) : list string :=
  if decide (tool_name = "create_task")
  then ["session_token"; "title"; "description"]
  else if decide (tool_name = "get_tasks") then ["session_token"]
  else if decide (tool_name = "update_task")
  then ["session_token"; "title"; "description"; "task_id"]
  else if decide (tool_name = "delete_task") then ["session_token"; "task_id"]
  else ["session_token"].

(** The operation needs a [task_id] that the parameters do not have. *)
Definition lacks_task_id (tool_name : string) (params : gmap string value) : Prop :=
  (tool_name = "update_task" \/ tool_name = "delete_task") /\
  params !! "task_id" = None.

(** The session token, which every operation formats into a header, is an
    integer beyond the limit of [str]; or the [task_id], which update and
    delete format into the URL, is one. *)
Definition format_fails (tool_name : string) (params : gmap string value) : Prop :=
  (exists v, params !! "session_token" = Some v /\ formats v = false) \/
  ((tool_name = "update_task" \/ tool_name = "delete_task") /\
   exists v, params !! "task_id" = Some v /\ formats v = false).

(** The values the operation formats are within the limit of [str]. *)
Definition formats_all (tool_name : string) (params : gmap string value) : Prop :=
  (forall v, params !! "session_token" = Some v -> formats v = true) /\
  (tool_name = "update_task" \/ tool_name = "delete_task" ->
   forall v, params !! "task_id" = Some v -> formats v = true).

(** The parameters the dispatcher gets from [process]. *)
Definition with_token (auth_token : option string) (params : gmap string value)
  : gmap string value :=
  <[ "session_token" := VStr (str_or auth_token EmptyString) ]> params.

(** The external calls [process] may make after the ones already made: none,
    the model call alone, a backend request alone, or a backend request
    followed by the model call. *)
Inductive calls_of_process : list event -> Prop :=
| calls_none :
    calls_of_process []
| calls_chat (prompt : string) :
    calls_of_process [ModelCall MODEL_NAME prompt]
| calls_request_only (req : request) :
    calls_of_process [HttpCall req]
| calls_request_then_model (req : request) (prompt : string) :
    calls_of_process [HttpCall req; ModelCall MODEL_NAME prompt].

(** ** Stand-ins for the backend and the model, for the examples *)

Definition local_base : string := "http://localhost:8000".

(** A backend that answers every request with the same response. *)
Definition respond (r : response) : request -> outcome response :=
  fun _ => Ret r.

Definition not_json : outcome json_value :=
  Raise (ExternalError "Expecting value: line 1 column 1 (char 0)").

Definition bad_data : response :=
  {| status_code := 400; text := "bad data"; json := not_json |}.

Definition created : response :=
  {| status_code := 201; text := "{}"; json := Ret (JObj []) |}.

Definition misleading_error : response :=
  {| status_code := 500; text := "Task added successfully."; json := not_json |}.

(** The request that creating the task [milk] without a session token sends. *)
Definition milk_params : gmap string value := {[ "title" := VStr "milk" ]}.

Definition milk_request : request :=
  {| method := POST;
     url := local_base +:+ "/api/tasks/";
     headers := {[ "Content-Type" := "application/json" ]};
     json_body := Some (<[ "title" := VStr "milk" ]>
                        {[ "description" := VStr EmptyString ]}) |}.

(** Creating the task [milk] with the session token [abc]. *)
Definition token_params : gmap string value :=
  <[ "session_token" := VStr "abc" ]> milk_params.

Definition token_request : request :=
  {| method := POST;
     url := local_base +:+ "/api/tasks/";
     headers := <[ "Authorization" := "Bearer abc" ]>
                {[ "Content-Type" := "application/json" ]};
     json_body := Some (<[ "title" := VStr "milk" ]>
                        {[ "description" := VStr EmptyString ]}) |}.

(** A list answered with an empty JSON array, and the request of a list
    without a session token. *)
Definition empty_list : response :=
  {| status_code := 200; text := "[]"; json := Ret (JArr []) |}.

Definition list_request : request :=
  {| method := GET;
     url := local_base +:+ "/api/tasks/";
     headers := {[ "Content-Type" := "application/json" ]};
     json_body := None |}.

(** An input whose digit run is one digit beyond the limit of [int], and an
    integer whose numeral is one digit beyond the limit of [str]. *)
Fixpoint ones (n : nat) : string :=
  match n with
  | O => EmptyString
  | S n' => String "1" (ones n')
  end.

Definition delete_4301_ones : string := "delete " +:+ ones 4301.

Definition ten_to_4300 : Z := 10 ^ 4300.

(** Marking task 7 as done with the session token [abc]. *)
Definition done_7_params : gmap string value :=
  <[ "session_token" := VStr "abc" ]>
  (<[ "task_id" := VInt 7 ]> {[ "status" := VStr "completed" ]}).

Definition done_7_request : request :=
  {| method := PUT;
     url := local_base +:+ "/api/tasks/7";
     headers := <[ "Authorization" := "Bearer abc" ]>
                {[ "Content-Type" := "application/json" ]};
     json_body := Some {[ "completed" := VBool true ]} |}.

Definition too_long_for_str : string :=
  "Exceeds the limit (4300 digits) for integer string conversion; use sys.set_int_max_str_digits() to increase the limit".

(** A backend that cannot be reached. *)
Definition unreachable : request -> outcome response :=
  fun _ => Raise (ExternalError "All connection attempts failed").

(** A model that always gives the same reply, and one that fails. *)
Definition model_says (reply : string) : string -> string -> outcome string :=
  fun _ _ => Ret reply.

Definition model_down : string -> string -> outcome string :=
  fun _ _ => Raise (ExternalError "Connection error.").

(** * Facts about the string operations *)

Module PyStrFacts.

Lemma app_nil_l (s : string) : EmptyString +:+ s = s.
Proof. reflexivity. Qed.

Lemma app_cons (c : ascii) (a b : string) :
  String c a +:+ b = String c (a +:+ b).
Proof. reflexivity. Qed.

Lemma app_nil_r (s : string) : s +:+ EmptyString = s.
Proof. induction s as [|c s IH]; [done|]. by rewrite app_cons, IH. Qed.

Lemma app_assoc (a b c : string) : (a +:+ b) +:+ c = a +:+ (b +:+ c).
Proof. induction a as [|x a IH]; [done|]. by rewrite !app_cons, IH. Qed.

Lemma length_app (a b : string) :
  String.length (a +:+ b) = (String.length a + String.length b)%nat.
Proof. induction a as [|x a IH]; [done|]. rewrite app_cons. simpl. by rewrite IH. Qed.

Lemma is_empty_true (s : string) : is_empty s = true <-> s = EmptyString.
Proof. destruct s; simpl; split; congruence. Qed.

Lemma is_empty_false (s : string) : is_empty s = false <-> s <> EmptyString.
Proof. destruct s; simpl; split; congruence. Qed.

(** *** [lower] *)

Lemma lower_char_not_upper (c : ascii) : isupper_char (lower_char c) = false.
Proof. destruct c as [[] [] [] [] [] [] [] []]; vm_compute; reflexivity. Qed.

Lemma lower_length (s : string) : String.length (lower s) = String.length s.
Proof. induction s as [|c s IH]; simpl; congruence. Qed.

Lemma lower_app (a b : string) : lower (a +:+ b) = lower a +:+ lower b.
Proof.
  induction a as [|x a IH]; [done|].
  rewrite app_cons. simpl. by rewrite IH, app_cons.
Qed.

(** *** [startswith] and [drop] *)

Lemma startswith_app (p t : string) : startswith p (p +:+ t) = true.
Proof.
  induction p as [|c p IH]; [done|].
  rewrite app_cons. simpl. by rewrite decide_True.
Qed.

Lemma drop_app (p t : string) : drop (String.length p) (p +:+ t) = t.
Proof. induction p as [|c p IH]; [done|]. by rewrite app_cons. Qed.

Lemma startswith_inv (p s : string) :
  startswith p s = true -> s = p +:+ drop (String.length p) s.
Proof.
  revert s. induction p as [|c p IH]; intros s H; [done|].
  destruct s as [|d s]; [done|]. simpl in H.
  destruct (decide (c = d)) as [->|]; [|done].
  rewrite app_cons. simpl. f_equal. by apply IH.
Qed.

Lemma startswith_spec (p s : string) :
  startswith p s = true <-> exists t, s = p +:+ t.
Proof.
  split.
  - intros H. eexists. by apply startswith_inv.
  - intros [t ->]. apply startswith_app.
Qed.

(** *** [contains] and [partition] *)

Lemma contains_cons (w : string) (c : ascii) (s : string) :
  contains w (String c s) = startswith w (String c s) || contains w s.
Proof. reflexivity. Qed.

(** [w in s] holds exactly when [s] is some text, then [w], then some
    text. *)
Lemma contains_spec (w s : string) :
  contains w s = true <-> exists pre post, s = pre +:+ w +:+ post.
Proof.
  split.
  - induction s as [|c s IH].
    + simpl. rewrite orb_false_r. intros H%startswith_inv.
      exists EmptyString. eexists. exact H.
    + rewrite contains_cons. intros [H|H]%orb_true_iff.
      * apply startswith_inv in H. exists EmptyString. eexists. exact H.
      * destruct (IH H) as (pre & post & ->).
        exists (String c pre), post. by rewrite app_cons.
  - intros (pre & post & ->).
    induction pre as [|c pre IH].
    + rewrite app_nil_l.
      destruct (w +:+ post) eqn:E; simpl; rewrite <- E, startswith_app; done.
    + rewrite app_cons, contains_cons, IH. apply orb_true_r.
Qed.

Lemma partition_None (w s : string) :
  partition w s = None <-> contains w s = false.
Proof.
  induction s as [|c s IH].
  - simpl. destruct (startswith w EmptyString); simpl; split; congruence.
  - rewrite contains_cons. simpl partition.
    destruct (startswith w (String c s)); simpl; [split; congruence|].
    destruct (partition w s) as [[a b]|]; rewrite <- IH; split; congruence.
Qed.

Lemma partition_is_Some (w s : string) :
  contains w s = true -> exists a b, partition w s = Some (a, b).
Proof.
  intros H. destruct (partition w s) as [[a b]|] eqn:E; [by eauto|].
  apply partition_None in E. congruence.
Qed.

(** [partition] cuts [s] at an occurrence of [w] ... *)
Lemma partition_app (w s a b : string) :
  partition w s = Some (a, b) -> s = a +:+ w +:+ b.
Proof.
  revert a b. induction s as [|c s IH]; intros a b.
  - simpl. destruct (startswith w EmptyString) eqn:E; [|done].
    intros [= <- <-]. by apply startswith_inv.
  - simpl partition. destruct (startswith w (String c s)) eqn:E.
    + intros [= <- <-]. by apply startswith_inv.
    + destruct (partition w s) as [[a' b']|]; [|done].
      intros [= <- <-]. rewrite app_cons. f_equal. by apply IH.
Qed.

(** ... and that occurrence is the leftmost one. *)
Lemma partition_leftmost (w s a b a' b' : string) :
  partition w s = Some (a, b) -> s = a' +:+ w +:+ b' ->
  (String.length a <= String.length a')%nat.
Proof.
  revert a b a'. induction s as [|c s IH]; intros a b a'.
  - simpl. destruct (startswith w EmptyString); [|done].
    intros [= <- <-] _. simpl. lia.
  - simpl partition. destruct (startswith w (String c s)) eqn:E.
    + intros [= <- <-] _. simpl. lia.
    + destruct (partition w s) as [[a0 b0]|] eqn:P; [|done].
      intros [= <- <-] Hs. destruct a' as [|d a'].
      * rewrite app_nil_l in Hs. rewrite Hs, startswith_app in E. done.
      * rewrite app_cons in Hs. injection Hs as -> Hs.
        simpl. apply le_n_S. eapply IH; eauto.
Qed.

Lemma any_in_spec (ws : list string) (s : string) :
  any_in ws s = true <->
  exists w pre post, w ∈ ws /\ s = pre +:+ w +:+ post.
Proof.
  unfold any_in. rewrite existsb_exists. split.
  - intros (w & Hin & (pre & post & ->)%contains_spec).
    exists w, pre, post. by rewrite list_elem_of_In.
  - intros (w & pre & post & Hin & ->). exists w. split.
    + by apply list_elem_of_In.
    + apply contains_spec. eauto.
Qed.

(** *** Lower case *)

Lemma no_upper_lower (s : string) : no_upper (lower s) = true.
Proof.
  induction s as [|c s IH]; [done|].
  simpl. by rewrite lower_char_not_upper, IH.
Qed.

Lemma no_upper_lower_id (s : string) : no_upper s = true -> lower s = s.
Proof.
  induction s as [|c s IH]; [done|].
  simpl. intros [Hc Hs]%andb_true_iff. rewrite (IH Hs).
  unfold lower_char. by destruct (isupper_char c).
Qed.

Lemma lower_idem (s : string) : lower (lower s) = lower s.
Proof. apply no_upper_lower_id, no_upper_lower. Qed.








(** *** [strip] *)

Lemma lstrip_spec (s : string) :
  exists l, s = l +:+ lstrip s /\ all_space l = true /\
            not_space_start (lstrip s) = true.
Proof.
  induction s as [|c s (l & E & Hl & Hs)]; [by exists EmptyString|].
  simpl. destruct (isspace_char c) eqn:Hc.
  - exists (String c l). rewrite app_cons, <- E. simpl. by rewrite Hc, Hl.
  - exists EmptyString. simpl. by rewrite Hc.
Qed.

Lemma rstrip_spec (s : string) :
  exists r, s = rstrip s +:+ r /\ all_space r = true /\
            not_space_end (rstrip s) = true /\
            (not_space_start s = true -> not_space_start (rstrip s) = true).
Proof.
  induction s as [|c s (r & E & Hr & He & _)]; [by exists EmptyString|].
  simpl. destruct (isspace_char c) eqn:Hc; simpl.
  - destruct (rstrip s) as [|d t] eqn:Hrs; simpl.
    + exists (String c r). rewrite app_nil_l in *. subst s. simpl.
      by rewrite Hc, Hr.
    + exists r. rewrite app_cons. rewrite <- E. by rewrite Hc.
  - exists r. rewrite app_cons, <- E. rewrite Hc.
    split; [done|]. split; [done|]. split; [|done].
    by destruct (rstrip s).
Qed.

(** [strip] removes a block of white space at each end and leaves a text
    that neither begins nor ends with white space. *)
Lemma strip_spec (s : string) :
  exists l r, s = l +:+ strip s +:+ r /\
              all_space l = true /\ all_space r = true /\
              not_space_start (strip s) = true /\
              not_space_end (strip s) = true.
Proof.
  destruct (lstrip_spec s) as (l & El & Hl & Hs).
  destruct (rstrip_spec (lstrip s)) as (r & Er & Hr & He & Hs').
  exists l, r. unfold strip. split; [by rewrite <- Er|].
  split; [done|]. split; [done|]. split; [by apply Hs'|done].
Qed.

(** *** Decimal values *)

Lemma int_from_snoc (s : string) (c : ascii) (acc : Z) :
  int_from acc (s +:+ String c EmptyString) = 10 * int_from acc s + digit_value c.
Proof.
  revert acc. induction s as [|d s IH]; intros acc; [done|].
  rewrite app_cons. simpl. apply IH.
Qed.

(** Decimal reading: appending a digit multiplies by ten and adds it. *)
Lemma decimal_value_snoc (s : string) (c : ascii) :
  decimal_value (s +:+ String c EmptyString) =
  10 * decimal_value s + digit_value c.
Proof. apply int_from_snoc. Qed.

(** *** The digit runs found by [findall_digits] *)

Lemma all_digits_no_digits_empty (s : string) :
  no_digits s = true -> all_digits s = true -> s = EmptyString.
Proof.
  destruct s as [|c s]; [done|]. simpl.
  intros [H1 _]%andb_true_iff [H2 _]%andb_true_iff.
  by rewrite H2 in H1.
Qed.

(** While a run [cur] is being read, the first string returned is [cur]
    extended by the digits that follow. *)
Lemma findall_digits_from_run (s cur : string) :
  cur <> EmptyString ->
  exists run post rest,
    s = run +:+ post /\ all_digits run = true /\
    not_digit_start post = true /\
    findall_digits_from cur s = (cur +:+ run) :: rest.
Proof.
  revert cur. induction s as [|c s IH]; intros cur Hcur.
  - exists EmptyString, EmptyString, []. rewrite !app_nil_r. simpl.
    destruct cur; [congruence|done].
  - simpl. destruct (isdigit_char c) eqn:Hc.
    + destruct (IH (cur +:+ String c EmptyString)) as (run & post & rest & -> & Hr & Hp & Hf).
      { destruct cur; [congruence|done]. }
      exists (String c run), post, rest. rewrite Hf, app_assoc.
      simpl. by rewrite Hc, Hr.
    + exists EmptyString, (String c s). eexists.
      rewrite app_nil_r. simpl. rewrite Hc.
      destruct cur; [congruence|done].
Qed.

Lemma findall_digits_first (s : string) :
  (no_digits s = true /\ findall_digits s = []) \/
  (exists run rest, first_digit_run s run /\ findall_digits s = run :: rest).
Proof.
  unfold findall_digits. induction s as [|c s IH]; [by left|].
  simpl. destruct (isdigit_char c) eqn:Hc.
  - right. rewrite app_nil_l.
    destruct (findall_digits_from_run s (String c EmptyString))
      as (run & post & rest & -> & Hr & Hp & Hf); [done|].
    exists (String c run), rest. split; [|done].
    exists EmptyString, post. simpl. by rewrite Hc, Hr.
  - destruct IH as [[Hn Hf]|(run & rest & (pre & post & -> & Hpre & Hne & Hr & Hp) & Hf)].
    + left. simpl. by rewrite Hn.
    + right. exists run, rest. split; [|done].
      exists (String c pre), post. simpl. by rewrite Hc, Hpre.
Qed.

Lemma first_digit_run_all_digits (s run : string) :
  first_digit_run s run -> all_digits run = true /\ run <> EmptyString.
Proof. by intros (pre & post & _ & _ & Hne & Hr & _). Qed.

(** The first run of digits is unique, so the identifier read off an input
    is determined by the input. *)
Lemma digit_block_unique (a b p q : string) :
  all_digits a = true -> all_digits b = true ->
  not_digit_start p = true -> not_digit_start q = true ->
  a +:+ p = b +:+ q -> a = b /\ p = q.
Proof.
  revert b. induction a as [|c a IH]; intros [|d b] Ha Hb Hp Hq E.
  - done.
  - rewrite app_nil_l, app_cons in E. subst p. simpl in Hp, Hb.
    apply andb_true_iff in Hb as [Hd _]. by rewrite Hd in Hp.
  - rewrite app_nil_l, app_cons in E. subst q. simpl in Hq, Ha.
    apply andb_true_iff in Ha as [Hc _]. by rewrite Hc in Hq.
  - rewrite !app_cons in E. injection E as -> E. simpl in Ha, Hb.
    apply andb_true_iff in Ha as [_ Ha]. apply andb_true_iff in Hb as [_ Hb].
    destruct (IH b Ha Hb Hp Hq E) as [-> ->]. done.
Qed.

Lemma first_digit_run_unique (s run run' : string) :
  first_digit_run s run -> first_digit_run s run' -> run = run'.
Proof.
  intros (pre & post & -> & Hpre & Hne & Hr & Hpost)
         (pre' & post' & E & Hpre' & Hne' & Hr' & Hpost').
  revert pre' Hpre' E. induction pre as [|c pre IH]; intros [|c' pre'] Hpre' E.
  - rewrite !app_nil_l in E.
    by destruct (digit_block_unique _ _ _ _ Hr Hr' Hpost Hpost' E).
  - exfalso. destruct run as [|d run]; [done|].
    rewrite app_nil_l, !app_cons in E. injection E as -> _.
    simpl in Hr, Hpre'. apply andb_true_iff in Hr as [Hd _].
    by rewrite Hd in Hpre'.
  - exfalso. destruct run' as [|d run']; [done|].
    rewrite app_nil_l, !app_cons in E. injection E as -> _.
    simpl in Hr', Hpre. apply andb_true_iff in Hr' as [Hd _].
    by rewrite Hd in Hpre.
  - rewrite !app_cons in E. injection E as -> E. simpl in Hpre, Hpre'.
    apply andb_true_iff in Hpre as [_ Hpre].
    apply andb_true_iff in Hpre' as [_ Hpre'].
    by apply (IH Hpre pre').
Qed.

Lemma no_digits_app (a b : string) :
  no_digits (a +:+ b) = no_digits a && no_digits b.
Proof.
  induction a as [|c a IH]; [done|].
  rewrite app_cons. simpl. by rewrite IH, andb_assoc.
Qed.

Lemma extracted_id_unique (s : string) (n m : Z) :
  extracted_id s n -> extracted_id s m -> n = m.
Proof.
  assert (forall run, first_digit_run s run -> no_digits s = true -> False) as Hex.
  { intros run (pre & post & -> & _ & Hne & Hr & _) Hn.
    rewrite !no_digits_app in Hn.
    apply andb_true_iff in Hn as [_ [Hn _]%andb_true_iff].
    by apply Hne, all_digits_no_digits_empty. }
  intros [[Hn ->]|(run & Hrun & ->)] [[Hm ->]|(run' & Hrun' & ->)].
  - done.
  - by destruct (Hex _ Hrun' Hn).
  - by destruct (Hex _ Hrun Hm).
  - by rewrite (first_digit_run_unique _ _ _ Hrun Hrun').
Qed.

End PyStrFacts.

(** * Facts about the conversions between [str] and [int] *)

Module NumeralFacts.
Import PyStrFacts.

Lemma digit_value_nonneg (c : ascii) : 0 <= digit_value c.
Proof. unfold digit_value. lia. Qed.

Lemma int_from_nonneg (s : string) (acc : Z) : 0 <= acc -> 0 <= int_from acc s.
Proof.
  revert acc. induction s as [|c s IH]; intros acc H; [done|].
  simpl. apply IH. pose proof (digit_value_nonneg c). lia.
Qed.

Lemma decimal_value_nonneg (s : string) : 0 <= decimal_value s.
Proof. by apply int_from_nonneg. Qed.

(** Reading a decimal numeral of the standard library. *)
Lemma int_from_string_of_uint (d l : Decimal.uint) :
  int_from (Z.of_N (DecimalPos.Unsigned.of_lu l)) (NilEmpty.string_of_uint d) =
  Z.of_N (DecimalPos.Unsigned.of_lu (Decimal.revapp d l)).
Proof.
  revert l. induction d; intros l; [done|..];
    simpl NilEmpty.string_of_uint; simpl int_from; simpl Decimal.revapp;
    rewrite <- IHd; f_equal; simpl DecimalPos.Unsigned.of_lu;
    unfold digit_value; simpl; lia.
Qed.

Lemma decimal_value_string_of_uint (d : Decimal.uint) :
  decimal_value (NilEmpty.string_of_uint d) = Z.of_uint d.
Proof.
  unfold decimal_value.
  change 0 with (Z.of_N (DecimalPos.Unsigned.of_lu Decimal.Nil)).
  rewrite int_from_string_of_uint. unfold Z.of_uint.
  by rewrite DecimalPos.Unsigned.of_uint_alt.
Qed.

Lemma all_digits_string_of_uint (d : Decimal.uint) :
  all_digits (NilEmpty.string_of_uint d) = true.
Proof. induction d; simpl; done. Qed.

Lemma length_string_of_uint (d : Decimal.uint) :
  String.length (NilEmpty.string_of_uint d) = Decimal.nb_digits d.
Proof. induction d; simpl; congruence. Qed.

Lemma string_of_uint_empty (d : Decimal.uint) :
  NilEmpty.string_of_uint d = EmptyString -> d = Decimal.Nil.
Proof. by destruct d. Qed.

(** A string of digits is the text of a numeral. *)
Lemma all_digits_uint (s : string) :
  all_digits s = true -> exists d, s = NilEmpty.string_of_uint d.
Proof.
  induction s as [|c s IH]; [by exists Decimal.Nil|].
  simpl. intros [Hc Hs]%andb_true_iff. destruct (IH Hs) as [d ->].
  destruct c as [[] [] [] [] [] [] [] []]; try discriminate Hc;
    first [ by exists (Decimal.D0 d) | by exists (Decimal.D1 d)
          | by exists (Decimal.D2 d) | by exists (Decimal.D3 d)
          | by exists (Decimal.D4 d) | by exists (Decimal.D5 d)
          | by exists (Decimal.D6 d) | by exists (Decimal.D7 d)
          | by exists (Decimal.D8 d) | by exists (Decimal.D9 d) ].
Qed.

Lemma unorm_nonnil (d : Decimal.uint) : Decimal.unorm d <> Decimal.Nil.
Proof. unfold Decimal.unorm. by destruct (Decimal.nzhead d). Qed.

Lemma nilzero_string_of_uint (d : Decimal.uint) :
  d <> Decimal.Nil ->
  NilZero.string_of_int (Decimal.Pos d) = NilEmpty.string_of_uint d.
Proof. by destruct d. Qed.

(** The numeral of a number that is not negative. *)
Lemma to_int_nonneg (n : Z) :
  0 <= n ->
  exists d, Z.to_int n = Decimal.Pos d /\ d <> Decimal.Nil /\
            Decimal.unorm d = d /\ Z.of_uint d = n.
Proof.
  intros Hn.
  assert (exists d, Z.to_int n = Decimal.Pos d /\ d <> Decimal.Nil) as (d & Hd & Hnil).
  { destruct n as [|p|p]; [by eexists| |lia].
    eexists. split; [done|]. apply DecimalPos.Unsigned.to_uint_nonnil. }
  exists d. split; [done|]. split; [done|].
  pose proof (DecimalZ.of_to n) as Hof. rewrite Hd in Hof. simpl in Hof.
  split; [|done].
  pose proof (DecimalZ.to_of (Decimal.Pos d)) as Hto.
  simpl Z.of_int in Hto. rewrite Hof, Hd in Hto. simpl in Hto. congruence.
Qed.

Lemma to_int_of_uint (d : Decimal.uint) :
  Z.to_int (Z.of_uint d) = Decimal.Pos (Decimal.unorm d).
Proof. apply (DecimalZ.to_of (Decimal.Pos d)). Qed.

Lemma of_uint_nonneg (d : Decimal.uint) : 0 <= Z.of_uint d.
Proof. unfold Z.of_uint. lia. Qed.

(** A canonical numeral has no superfluous leading zero. *)
Lemma unorm_no_leading_zero (d : Decimal.uint) :
  Decimal.unorm d = d -> no_leading_zero (NilEmpty.string_of_uint d) = true.
Proof.
  destruct d as [|d|d|d|d|d|d|d|d|d|d]; intros H;
    [done| |simpl; by destruct d..].
  destruct d as [|d'|d'|d'|d'|d'|d'|d'|d'|d'|d']; [done|..]; exfalso;
    rewrite DecimalFacts.unorm_D0 in H;
    match type of H with
    | Decimal.unorm ?u = _ =>
        pose proof (DecimalFacts.nb_digits_unorm u) as Hle;
        rewrite H in Hle; simpl in Hle; specialize (Hle ltac:(done)); lia
    end.
Qed.

(** [str] of a number that is not negative: when it returns, the result is a
    non-empty string of at most 4300 digits without a superfluous leading
    zero, and it denotes the number. *)
Lemma str_int_roundtrip (n : Z) (numeral : string) :
  0 <= n -> str_int n = Ret numeral ->
  decimal_value numeral = n /\
  all_digits numeral = true /\ numeral <> EmptyString /\
  no_leading_zero numeral = true /\
  (String.length numeral <= int_max_str_digits)%nat.
Proof.
  intros Hn. unfold str_int. rewrite Z.abs_eq by done.
  destruct (to_int_nonneg n Hn) as (d & -> & Hnil & Hcanon & Hval).
  rewrite (nilzero_string_of_uint d Hnil).
  destruct (Nat.ltb_spec int_max_str_digits
              (String.length (NilEmpty.string_of_uint d))) as [|Hle]; [done|].
  intros [= <-]. split; [by rewrite decimal_value_string_of_uint|].
  split; [apply all_digits_string_of_uint|].
  split; [by intros ?%string_of_uint_empty|].
  split; [by apply unorm_no_leading_zero|done].
Qed.

(** What [int] returns, [str] can format. *)
Lemma decimal_value_formats (s : string) :
  all_digits s = true -> s <> EmptyString ->
  (String.length s <= int_max_str_digits)%nat ->
  formats (VInt (decimal_value s)) = true.
Proof.
  intros (d & ->)%all_digits_uint Hne Hlen.
  assert (d <> Decimal.Nil) as Hd by (by intros ->).
  rewrite decimal_value_string_of_uint.
  unfold formats, py_str, str_int.
  rewrite Z.abs_eq by apply of_uint_nonneg.
  rewrite to_int_of_uint, (nilzero_string_of_uint _ (unorm_nonnil d)).
  rewrite !length_string_of_uint in *.
  pose proof (DecimalFacts.nb_digits_unorm d Hd) as Hle.
  destruct (Nat.ltb_spec int_max_str_digits
              (Decimal.nb_digits (Decimal.unorm d))) as [Hlt|]; [lia|done].
Qed.

(** The identifier read by the classifier: within the limit it is the value of
    the first run of digits (or 1), it is not negative and [str] can format
    it; beyond the limit [int] raises [ValueError]. *)
Lemma first_id_cases (s : string) :
  (first_run_fits s = true /\
   exists n, first_id (findall_digits s) = Ret n /\ extracted_id s n /\
             0 <= n /\ formats (VInt n) = true) \/
  (first_run_fits s = false /\
   exists msg, first_id (findall_digits s) = Raise (ValueError msg)).
Proof.
  unfold first_run_fits.
  destruct (findall_digits_first s) as [[Hn ->]|(run & rest & Hrun & ->)].
  - left. split; [done|]. exists 1. split; [done|]. split; [by left|].
    split; [lia|]. vm_compute. reflexivity.
  - simpl first_id. unfold int. rewrite Nat.ltb_antisym.
    destruct (first_digit_run_all_digits _ _ Hrun) as [Hd Hne].
    destruct (String.length run <=? int_max_str_digits)%nat eqn:Hfit; simpl.
    + left. split; [done|]. eexists. split; [done|].
      split; [right; by exists run|]. split; [apply decimal_value_nonneg|].
      apply decimal_value_formats; [done..|]. by apply Nat.leb_le.
    + right. split; [done|]. by eexists.
Qed.

Lemma first_id_Ret (s : string) (n : Z) :
  first_id (findall_digits s) = Ret n ->
  first_run_fits s = true /\ extracted_id s n /\ 0 <= n /\
  formats (VInt n) = true.
Proof.
  intros H. destruct (first_id_cases s) as [(Hf & m & Hm & He & Hp & Hfm)|(_ & msg & Hm)];
    rewrite H in Hm; [|done]. by injection Hm as <-.
Qed.

Lemma first_id_Raise (s : string) (e : exn) :
  first_id (findall_digits s) = Raise e ->
  first_run_fits s = false /\ exists msg, e = ValueError msg.
Proof.
  intros H. destruct (first_id_cases s) as [(_ & m & Hm & _)|(Hf & msg & Hm)];
    rewrite H in Hm; [done|]. injection Hm as ->. eauto.
Qed.

End NumeralFacts.

(** * The classifier *)

Module ClassifierFacts.
Import PyStrFacts NumeralFacts.

Lemma app_inj_length (a b a' b' : string) :
  a +:+ b = a' +:+ b' -> String.length a = String.length a' ->
  a = a' /\ b = b'.
Proof.
  revert a'. induction a as [|c a IH]; intros [|c' a']; simpl; try done.
  rewrite !app_cons. intros [= -> H] [= Hl].
  destruct (IH _ H Hl) as [-> ->]. done.
Qed.

Lemma first_keyword_unique (ws : list string) (t w w' : string) :
  first_keyword ws t w -> first_keyword ws t w' -> w = w'.
Proof.
  intros (i & Hi & Hc & Hlt) (i' & Hi' & Hc' & Hlt').
  destruct (Nat.lt_trichotomy i i') as [H|[->|H]].
  - rewrite (Hlt' _ _ H Hi) in Hc. done.
  - congruence.
  - rewrite (Hlt _ _ H Hi') in Hc'. done.
Qed.

Lemma first_occurrence_unique (w t pre post pre' post' : string) :
  first_occurrence w t pre post -> first_occurrence w t pre' post' ->
  pre = pre' /\ post = post'.
Proof.
  intros [E L] [E' L'].
  assert (String.length pre = String.length pre') as Hlen.
  { apply Nat.le_antisymm; [by eapply L|by eapply L']. }
  rewrite E in E'. destruct (app_inj_length _ _ _ _ E' Hlen) as [-> H].
  split; [done|]. by apply (inj (String.app w)) in H.
Qed.

Lemma partition_first_occurrence (w t pre post : string) :
  partition w t = Some (pre, post) -> first_occurrence w t pre post.
Proof.
  intros H. split; [by apply partition_app|].
  intros pre' post' E. by eapply partition_leftmost.
Qed.

(** The loop of the create branch returns at the first keyword that occurs,
    with the title taken after the first occurrence of that keyword. *)
Lemma create_loop_returns (ws : list string) (t user_input : string) :
  any_in ws t = true ->
  exists w pre post,
    first_keyword ws t w /\ first_occurrence w t pre post /\
    create_loop ws t user_input =
      Ret (Some ("create_task",
                 {[ "title" := VStr (if is_empty (clean_title post)
                                     then user_input else clean_title post) ]})).
Proof.
  induction ws as [|w ws IH]; [done|].
  unfold any_in. simpl existsb. simpl create_loop.
  destruct (contains w t) eqn:Hw.
  - intros _. destruct (partition_is_Some _ _ Hw) as (pre & post & Hp).
    exists w, pre, post. split; [|split].
    + exists 0%nat. split; [done|]. split; [done|]. intros j w' Hj. lia.
    + by apply partition_first_occurrence.
    + unfold split1. rewrite Hp. reflexivity.
  - rewrite orb_false_l. intros H.
    destruct (IH H) as (w0 & pre & post & (i & Hi & Hc & Hlt) & Hocc & Hloop).
    exists w0, pre, post. split; [|done].
    exists (S i). split; [done|]. split; [done|].
    intros [|j] w' Hj Hl; simpl in Hl.
    + by injection Hl as <-.
    + eapply Hlt; [|done]. lia.
Qed.

Lemma identify_create (user_input user_id : string) :
  any_in create_keywords (lower user_input) = true ->
  exists w pre post,
    first_keyword create_keywords (lower user_input) w /\
    first_occurrence w (lower user_input) pre post /\
    _identify_mcp_tool_and_params user_input user_id =
      Ret (Some "create_task",
           Some {[ "title" := VStr (if is_empty (clean_title post)
                                    then user_input else clean_title post) ]}).
Proof.
  intros H.
  destruct (create_loop_returns _ _ user_input H) as (w & pre & post & Hk & Ho & Hl).
  exists w, pre, post. split; [done|]. split; [done|].
  unfold _identify_mcp_tool_and_params. rewrite H, Hl. reflexivity.
Qed.

(** When no create keyword occurs, the classifier is the rest of the
    chain. *)
Lemma identify_not_create (user_input user_id : string) :
  any_in create_keywords (lower user_input) = false ->
  _identify_mcp_tool_and_params user_input user_id =
    let t := lower user_input in
    if wants_list t then
      Ret (Some "get_tasks", Some {[ "user_id" := VStr user_id ]})
    else if any_in delete_keywords t then
      obind (first_id (findall_digits user_input)) (fun task_id =>
      Ret (Some "delete_task", Some {[ "task_id" := VInt task_id ]}))
    else if any_in update_keywords t then
      obind (first_id (findall_digits user_input)) (fun task_id =>
      Ret (Some "update_task",
           Some (<[ "task_id" := VInt task_id ]>
                 {[ "status" := VStr "completed" ]})))
    else Ret (None, None).
Proof.
  intros H. unfold _identify_mcp_tool_and_params. rewrite H. reflexivity.
Qed.

(** Whenever the classifier returns, the operation is the one of the first
    branch of the chain whose test holds. *)
Lemma identify_chain (user_input user_id : string)
    (r : option string * option (gmap string value)) :
  _identify_mcp_tool_and_params user_input user_id = Ret r ->
  r.1 = (let t := lower user_input in
         if any_in create_keywords t then Some "create_task"
         else if wants_list t then Some "get_tasks"
         else if any_in delete_keywords t then Some "delete_task"
         else if any_in update_keywords t then Some "update_task"
         else None).
Proof.
  cbv zeta. destruct (any_in create_keywords (lower user_input)) eqn:Hc.
  - destruct (identify_create user_input user_id Hc) as (w & pre & post & _ & _ & ->).
    by intros [= <-].
  - rewrite (identify_not_create _ _ Hc). cbv zeta.
    destruct (wants_list _); [by intros [= <-]|].
    destruct (any_in delete_keywords _).
    { destruct (first_id _); simpl; [by intros [= <-]|done]. }
    destruct (any_in update_keywords _).
    { destruct (first_id _); simpl; [by intros [= <-]|done]. }
    by intros [= <-].
Qed.

(** The classifier raises only in the delete and update branches, and only
    the [ValueError] of [int] on a first run of more than 4300 digits. *)
Lemma identify_raises (user_input user_id : string) (e : exn) :
  _identify_mcp_tool_and_params user_input user_id = Raise e ->
  any_in create_keywords (lower user_input) = false /\
  wants_list (lower user_input) = false /\
  (any_in delete_keywords (lower user_input) = true \/
   any_in update_keywords (lower user_input) = true) /\
  first_run_fits user_input = false /\
  exists msg, e = ValueError msg.
Proof.
  destruct (any_in create_keywords (lower user_input)) eqn:Hc.
  - by destruct (identify_create user_input user_id Hc) as (w & pre & post & _ & _ & ->).
  - rewrite (identify_not_create _ _ Hc). cbv zeta.
    destruct (wants_list _); [done|].
    destruct (any_in delete_keywords _).
    { destruct (first_id _) eqn:Hid; simpl; [done|]. intros [= ->].
      apply NumeralFacts.first_id_Raise in Hid as [Hfit Hmsg]. auto. }
    destruct (any_in update_keywords _); [|done].
    destruct (first_id _) eqn:Hid; simpl; [done|]. intros [= ->].
    apply NumeralFacts.first_id_Raise in Hid as [Hfit Hmsg]. auto.
Qed.

Lemma identify_returns (user_input user_id : string) :
  any_in create_keywords (lower user_input) = true \/
  wants_list (lower user_input) = true \/
  first_run_fits user_input = true ->
  exists r, _identify_mcp_tool_and_params user_input user_id = Ret r.
Proof.
  intros H.
  destruct (_identify_mcp_tool_and_params user_input user_id) as [r|e] eqn:Hi;
    [by eauto|].
  apply identify_raises in Hi as (Hc & Hl & _ & Hfit & _).
  destruct H as [H|[H|H]]; congruence.
Qed.

(** Lowering changes no digit and makes no digit, so it keeps the digit
    runs. *)
Lemma lower_char_digit (c : ascii) :
  isdigit_char (lower_char c) = isdigit_char c /\
  (isdigit_char c = true -> lower_char c = c).
Proof. destruct c as [[] [] [] [] [] [] [] []]; by vm_compute. Qed.

Lemma findall_digits_from_lower (s cur : string) :
  findall_digits_from cur (lower s) = findall_digits_from cur s.
Proof.
  revert cur. induction s as [|c s IH]; intros cur; [done|].
  simpl. destruct (lower_char_digit c) as [-> Hd].
  destruct (isdigit_char c); [|by rewrite !IH].
  by rewrite Hd, IH.
Qed.

Lemma findall_digits_lower (s : string) :
  findall_digits (lower s) = findall_digits s.
Proof. apply findall_digits_from_lower. Qed.

Lemma identify_operation_case (a b user_id : string) :
  lower a = lower b ->
  operation_of (_identify_mcp_tool_and_params a user_id) =
  operation_of (_identify_mcp_tool_and_params b user_id).
Proof.
  intros E.
  assert (findall_digits a = findall_digits b) as Hd.
  { by rewrite <- (findall_digits_lower a), E, findall_digits_lower. }
  destruct (any_in create_keywords (lower a)) eqn:Hc.
  - destruct (identify_create a user_id Hc) as (w & pre & post & _ & _ & ->).
    rewrite E in Hc.
    by destruct (identify_create b user_id Hc) as (w' & pre' & post' & _ & _ & ->).
  - rewrite (identify_not_create a _ Hc). rewrite E in Hc.
    rewrite (identify_not_create b _ Hc). cbv zeta. rewrite E, Hd.
    destruct (wants_list _); [done|].
    destruct (any_in delete_keywords _); [by destruct (first_id _)|].
    destruct (any_in update_keywords _); [by destruct (first_id _)|done].
Qed.

Lemma contains_lower (w s : string) :
  contains w s = true -> contains (lower w) (lower s) = true.
Proof.
  intros (pre & post & ->)%contains_spec. apply contains_spec.
  exists (lower pre), (lower post). by rewrite !lower_app.
Qed.

Lemma any_in_elem (ws : list string) (w t : string) :
  w ∈ ws -> contains w t = true -> any_in ws t = true.
Proof.
  intros Hin Hc. unfold any_in. apply existsb_exists.
  exists w. split; [by apply list_elem_of_In|done].
Qed.

(** When the text does not begin with [task] or [to] inside a longer word,
    the two [removeprefix] calls remove one leading word. *)
Lemma clean_title_tokens (rest : string) :
  whole_words_only (strip rest) = true ->
  clean_title rest = strip (strip_leading_token (strip rest)).
Proof.
  unfold clean_title, whole_words_only, strip_leading_token.
  generalize (strip rest). intros s H. f_equal.
  destruct (startswith "task" s) eqn:Ht.
  - rewrite H. unfold removeprefix at 2. rewrite Ht.
    unfold starts_with_word in H. rewrite Ht, andb_true_l in H.
    change (String.length "task") with 4%nat in *.
    destruct (drop 4 s) as [|c s'] eqn:Hd; [done|].
    unfold removeprefix.
    destruct (startswith "to" (String c s')) eqn:Hto; [|done].
    exfalso. simpl in Hto.
    destruct (decide ("t"%char = c)) as [<-|]; [|done].
    by vm_compute in H.
  - assert (starts_with_word "task" s = false) as ->.
    { unfold starts_with_word. by rewrite Ht. }
    unfold removeprefix at 2. rewrite Ht. unfold removeprefix.
    destruct (startswith "to" s) eqn:Ho.
    + by rewrite H.
    + unfold starts_with_word. by rewrite Ho.
Qed.

End ClassifierFacts.

(** * Properties of the classifier *)

Section ClassifierClaims.
Import PyStrFacts NumeralFacts ClassifierFacts.

(** C1, as stated, fails: the title is cut out of the lowercased copy of the
    input, so for the input [Add Milk] it is [milk], which is not the text
    [Milk] that follows the keyword in the input. *)
Lemma create_title_not_from_raw_input :
  let user_input := "Add Milk" in
  any_in create_keywords (lower user_input) = true /\
  spec_create_title user_input = Some "Milk" /\
  _identify_mcp_tool_and_params user_input "u1" =
    Ret (Some "create_task", Some {[ "title" := VStr "milk" ]}) /\
  _identify_mcp_tool_and_params user_input "u1" <>
    Ret (Some "create_task", Some {[ "title" := VStr "Milk" ]}).
Proof.
  cbv zeta.
  assert (_identify_mcp_tool_and_params "Add Milk" "u1" =
          Ret (Some "create_task", Some {[ "title" := VStr "milk" ]})) as E.
  { vm_compute. reflexivity. }
  split; [vm_compute; reflexivity|]. split; [vm_compute; reflexivity|].
  split; [exact E|]. rewrite E. intros H.
  apply (f_equal (fun o : outcome (option string * option (gmap string value)) =>
                    match o with
                    | Ret (_, Some m) => m !! "title"
                    | _ => None
                    end)) in H.
  vm_compute in H. discriminate H.
Qed.

(** C1 (amended): when the lowercased input contains one of the create
    keywords, classification yields [create_task] with one parameter, a title
    that is never empty.  Let [w] be the first keyword in the order add,
    create, make, new that occurs in the lowercased input, and [post] the text
    after the first occurrence of [w] in the lowercased input.  When [post],
    without surrounding white space, does not begin with [task] or [to] inside
    a longer word, the title is [post] without surrounding white space, without
    a leading word [task] or [to], and again without surrounding white space,
    or the raw input when nothing remains.  (A remainder beginning with [task]
    or [to] inside a longer word is left out of this statement.) *)
Theorem create_title_from_lowercased_input (user_input user_id : string) :
  any_in create_keywords (lower user_input) = true ->
  exists w pre post title,
    first_keyword create_keywords (lower user_input) w /\
    first_occurrence w (lower user_input) pre post /\
    _identify_mcp_tool_and_params user_input user_id =
      Ret (Some "create_task", Some {[ "title" := VStr title ]}) /\
    title <> EmptyString /\
    (whole_words_only (strip post) = true ->
     title = (if is_empty (strip (strip_leading_token (strip post)))
              then user_input
              else strip (strip_leading_token (strip post)))).
Proof.
  intros H.
  destruct (identify_create user_input user_id H) as (w & pre & post & Hk & Ho & Hi).
  exists w, pre, post. eexists. do 3 (split; [done|]). split.
  - destruct (is_empty (clean_title post)) eqn:E.
    + intros ->. vm_compute in H. done.
    + by apply is_empty_false.
  - intros Hw. by rewrite (clean_title_tokens _ Hw).
Qed.

Lemma create_title_from_lowercased_input_witness :
  any_in create_keywords (lower "Please ADD task Buy Milk  ") = true /\
  exists w pre post title,
    first_keyword create_keywords (lower "Please ADD task Buy Milk  ") w /\
    first_occurrence w (lower "Please ADD task Buy Milk  ") pre post /\
    _identify_mcp_tool_and_params "Please ADD task Buy Milk  " "u1" =
      Ret (Some "create_task", Some {[ "title" := VStr title ]}) /\
    title <> EmptyString /\
    (whole_words_only (strip post) = true ->
     title = (if is_empty (strip (strip_leading_token (strip post)))
              then "Please ADD task Buy Milk  "
              else strip (strip_leading_token (strip post)))).
Proof.
  split; [reflexivity|].
  apply (create_title_from_lowercased_input "Please ADD task Buy Milk  " "u1").
  reflexivity.
Defined.

(** C2: the classifier is a first-match chain over the lowercased input, in
    the order create, list, delete, update: whenever it returns, the operation
    is that of the first branch whose test holds (none if no test holds), and
    it returns whenever a create keyword or a list test holds or the first run
    of digits is within the limit of [int]; if it raises, the branch that
    fired is delete or update.  The operation depends on the input only up to
    letter case, and an input that contains both [add] and [list] is classified
    as create. *)
Theorem classifier_is_first_match_chain (user_input user_id : string) :
  let t := lower user_input in
  let chain := (if any_in create_keywords t then Some "create_task"
                else if wants_list t then Some "get_tasks"
                else if any_in delete_keywords t then Some "delete_task"
                else if any_in update_keywords t then Some "update_task"
                else None) in
  let op := operation_of (_identify_mcp_tool_and_params user_input user_id) in
  (forall r, _identify_mcp_tool_and_params user_input user_id = Ret r ->
     r.1 = chain) /\
  (any_in create_keywords t = true \/ wants_list t = true \/
   first_run_fits user_input = true -> op = chain) /\
  (forall e, _identify_mcp_tool_and_params user_input user_id = Raise e ->
     (chain = Some "delete_task" \/ chain = Some "update_task") /\
     first_run_fits user_input = false) /\
  (forall other : string, lower other = t ->
     operation_of (_identify_mcp_tool_and_params other user_id) = op) /\
  (contains "add" t = true -> contains "list" t = true ->
     op = Some "create_task") /\
  (contains "add" user_input = true -> contains "list" user_input = true ->
     op = Some "create_task").
Proof.
  cbv zeta.
  assert (any_in create_keywords (lower user_input) = true ->
          operation_of (_identify_mcp_tool_and_params user_input user_id) =
          Some "create_task") as Hcreate.
  { intros Hc.
    by destruct (identify_create user_input user_id Hc) as (w & pre & post & _ & _ & ->). }
  split; [intros r; apply identify_chain|].
  split; [|split; [|split; [|split]]].
  - intros H. destruct (identify_returns user_input user_id H) as [[o ps] Hr].
    rewrite Hr. apply (identify_chain _ _ _ Hr).
  - intros e (Hc & Hl & Hdu & Hfit & _)%identify_raises. rewrite Hc, Hl.
    split; [|done]. destruct (any_in delete_keywords _); [by left|].
    destruct Hdu as [Hd|Hu]; [done|]. rewrite Hu. by right.
  - intros other E. by apply identify_operation_case.
  - intros Ha _. apply Hcreate.
    apply (any_in_elem create_keywords "add"); [|done].
    unfold create_keywords. repeat constructor.
  - intros Ha%contains_lower _. apply Hcreate.
    apply (any_in_elem create_keywords "add"); [|done].
    unfold create_keywords. repeat constructor.
Qed.

Lemma classifier_is_first_match_chain_witness :
  contains "add" (lower "Add milk to my shopping LIST") = true /\
  contains "list" (lower "Add milk to my shopping LIST") = true /\
  operation_of
    (_identify_mcp_tool_and_params "Add milk to my shopping LIST" "u1") =
  Some "create_task".
Proof.
  split; [reflexivity|]. split; [reflexivity|].
  destruct (classifier_is_first_match_chain "Add milk to my shopping LIST" "u1")
    as (_ & _ & _ & _ & H & _).
  apply H; reflexivity.
Defined.

(** C3, as stated, fails twice.  [remove my tasks 3] contains no create keyword
    and no list keyword, and it contains [remove], yet it is classified as a
    list request because of the phrase [my tasks].  And [delete] followed by
    4301 digits is not classified at all: [int] raises [ValueError]. *)
Lemma delete_needs_no_my_tasks_phrase :
  let user_input := "remove my tasks 3" in
  (any_in create_keywords (lower user_input) = false /\
   any_in list_keywords (lower user_input) = false /\
   any_in delete_keywords (lower user_input) = true /\
   _identify_mcp_tool_and_params user_input "u1" =
     Ret (Some "get_tasks", Some {[ "user_id" := VStr "u1" ]}) /\
   operation_of (_identify_mcp_tool_and_params user_input "u1") <>
     Some "delete_task") /\
  (any_in create_keywords (lower delete_4301_ones) = false /\
   wants_list (lower delete_4301_ones) = false /\
   any_in delete_keywords (lower delete_4301_ones) = true /\
   _identify_mcp_tool_and_params delete_4301_ones "u1" =
     Raise (ValueError "Exceeds the limit (4300 digits) for integer string conversion: value has 4301 digits; use sys.set_int_max_str_digits() to increase the limit")).
Proof.
  cbv zeta.
  assert (_identify_mcp_tool_and_params "remove my tasks 3" "u1" =
          Ret (Some "get_tasks", Some {[ "user_id" := VStr "u1" ]})) as E.
  { vm_compute. reflexivity. }
  split.
  - do 3 (split; [vm_compute; reflexivity|]).
    split; [exact E|]. rewrite E. simpl. discriminate.
  - do 3 (split; [vm_compute; reflexivity|]). vm_compute. reflexivity.
Qed.

(** C3 (amended): for an input whose lowercased text contains no create
    keyword, no list keyword and not the phrase [my tasks], and whose first run
    of decimal digits, if it has one, is of at most 4300 digits: if it contains
    [delete] or [remove], classification yields [delete_task] whose [task_id]
    is the value of the first run of decimal digits of the raw input, or 1 when
    the input has no digit; if it contains neither but contains [update],
    [complete] or [done], classification yields [update_task] with the
    [task_id] read the same way and [status] equal to [completed]. *)
Theorem delete_and_update_read_first_number (user_input user_id : string) :
  any_in create_keywords (lower user_input) = false ->
  wants_list (lower user_input) = false ->
  first_run_fits user_input = true ->
  exists n : Z,
    extracted_id user_input n /\
    (forall m : Z, extracted_id user_input m -> m = n) /\
    (any_in delete_keywords (lower user_input) = true ->
     _identify_mcp_tool_and_params user_input user_id =
       Ret (Some "delete_task", Some {[ "task_id" := VInt n ]})) /\
    (any_in delete_keywords (lower user_input) = false ->
     any_in update_keywords (lower user_input) = true ->
     _identify_mcp_tool_and_params user_input user_id =
       Ret (Some "update_task",
            Some (<[ "task_id" := VInt n ]> {[ "status" := VStr "completed" ]}))).
Proof.
  intros Hc Hl Hfit.
  destruct (first_id_cases user_input) as [(_ & n & Hn & He & _)|[Hf _]];
    [|congruence].
  exists n. split; [done|].
  split; [intros m Hm; by eapply extracted_id_unique|].
  rewrite (identify_not_create _ _ Hc). cbv zeta. rewrite Hl, Hn.
  split.
  - by intros ->.
  - by intros -> ->.
Qed.

Lemma delete_and_update_read_first_number_witness :
  exists n : Z,
    extracted_id "please Delete task 042 and 7" n /\
    (forall m : Z, extracted_id "please Delete task 042 and 7" m -> m = n) /\
    (any_in delete_keywords (lower "please Delete task 042 and 7") = true ->
     _identify_mcp_tool_and_params "please Delete task 042 and 7" "u1" =
       Ret (Some "delete_task", Some {[ "task_id" := VInt n ]})) /\
    (any_in delete_keywords (lower "please Delete task 042 and 7") = false ->
     any_in update_keywords (lower "please Delete task 042 and 7") = true ->
     _identify_mcp_tool_and_params "please Delete task 042 and 7" "u1" =
       Ret (Some "update_task",
            Some (<[ "task_id" := VInt n ]> {[ "status" := VStr "completed" ]}))).
Proof.
  apply (delete_and_update_read_first_number "please Delete task 042 and 7" "u1");
    reflexivity.
Defined.



Example create_title_examples :
  _identify_mcp_tool_and_params "Create TO-DO: Call Bob" "u1" =
    Ret (Some "create_task", Some {[ "title" := VStr "-do: call bob" ]}) /\
  _identify_mcp_tool_and_params "ADD" "u1" =
    Ret (Some "create_task", Some {[ "title" := VStr "ADD" ]}) /\
  _identify_mcp_tool_and_params "add task to buy milk" "u1" =
    Ret (Some "create_task", Some {[ "title" := VStr "to buy milk" ]}) /\
  _identify_mcp_tool_and_params "add tomatoes" "u1" =
    Ret (Some "create_task", Some {[ "title" := VStr "matoes" ]}) /\
  _identify_mcp_tool_and_params "make a new list" "u1" =
    Ret (Some "create_task", Some {[ "title" := VStr "a new list" ]}).
Proof. repeat (split; [vm_compute; reflexivity|]). vm_compute. reflexivity. Qed.

Example classifier_examples :
  _identify_mcp_tool_and_params "show my tasks" "u1" =
    Ret (Some "get_tasks", Some {[ "user_id" := VStr "u1" ]}) /\
  _identify_mcp_tool_and_params "delete task 42" "u1" =
    Ret (Some "delete_task", Some {[ "task_id" := VInt 42 ]}) /\
  _identify_mcp_tool_and_params "delete it" "u1" =
    Ret (Some "delete_task", Some {[ "task_id" := VInt 1 ]}) /\
  _identify_mcp_tool_and_params "mark done 7" "u1" =
    Ret (Some "update_task",
         Some (<[ "task_id" := VInt 7 ]> {[ "status" := VStr "completed" ]})) /\
  _identify_mcp_tool_and_params "hello there" "u1" = Ret (None, None).
Proof. repeat (split; [vm_compute; reflexivity|]). vm_compute. reflexivity. Qed.

End ClassifierClaims.

(** * The dispatcher *)

Module DispatcherFacts.
Import PyStrFacts.

Ltac run_monad := unfold bind, http_send, model_call, ret, lift, getitem;
                  cbv beta iota zeta.

(** Sending a request and then computing without further calls. *)
Lemma bind_send_pure {B} (backend : request -> outcome response)
    (m : http_method) (u : string) (body : option (gmap string value))
    (h : gmap string string) (k : response -> M B) (g : response -> outcome B)
    (tr : list event) :
  (forall r tr', k r tr' = (g r, tr')) ->
  bind (http_send backend m u body h) k tr =
    (obind (backend {| method := m; url := u; headers := h; json_body := body |}) g,
     tr ++ [HttpCall {| method := m; url := u; headers := h; json_body := body |}]).
Proof.
  intros Hk. unfold bind, http_send. cbv beta iota zeta.
  destruct (backend _) as [r|e]; [apply Hk|reflexivity].
Qed.

(** The dispatcher as a function of the request it builds: it raises before
    any call, or it has nothing to send, or it sends the request and reads its
    result off the response. *)
Lemma execute_run (BASE : string) (backend : request -> outcome response)
    (tool_name : string) (params : gmap string value) (tr : list event) :
  _execute_mcp_tool BASE backend tool_name params tr =
  match request_of BASE tool_name params with
  | Ret (Some req) =>
      (obind (backend req) (result_of_response tool_name), tr ++ [HttpCall req])
  | Ret None => (Ret "Unknown action", tr)
  | Raise e => (Raise e, tr)
  end.
Proof.
  unfold _execute_mcp_tool, request_of. unfold bind at 1, lift.
  destruct (request_headers params) as [h|e]; [|reflexivity].
  cbv beta iota. unfold obind at 1.
  destruct (decide (tool_name = "create_task")) as [->|N1].
  { cbv zeta. apply bind_send_pure. reflexivity. }
  destruct (decide (tool_name = "get_tasks")) as [->|N2].
  { apply bind_send_pure. intros r tr'.
    unfold result_of_response. rewrite decide_True by done.
    destruct (status_code r =? 200); [|reflexivity].
    run_monad. destruct (json r) as [j|e]; [|reflexivity].
    simpl. by destruct (json_truthy j). }
  destruct (decide (tool_name = "update_task")) as [->|N3].
  { cbv zeta. unfold bind at 1, lift.
    destruct (getitem params "task_id") as [v|e]; [|reflexivity].
    cbv beta iota. unfold obind at 1. unfold bind at 1.
    destruct (py_str v) as [id_text|e]; [|reflexivity].
    cbv beta iota. unfold obind at 1. apply bind_send_pure. reflexivity. }
  destruct (decide (tool_name = "delete_task")) as [->|N4].
  { unfold bind at 1, lift.
    destruct (getitem params "task_id") as [v|e]; [|reflexivity].
    cbv beta iota. unfold obind at 1. unfold bind at 1.
    destruct (py_str v) as [id_text|e]; [|reflexivity].
    cbv beta iota. unfold obind at 1. apply bind_send_pure. reflexivity. }
  reflexivity.
Qed.

(** *** The known operations *)

Lemma known_operations_elem (tool_name : string) :
  tool_name ∈ known_operations <->
  tool_name = "create_task" \/ tool_name = "get_tasks" \/
  tool_name = "update_task" \/ tool_name = "delete_task".
Proof.
  unfold known_operations. rewrite !elem_of_cons, elem_of_nil. tauto.
Qed.

(** *** [str] *)

Lemma py_str_Raise (v : value) (e : exn) :
  py_str v = Raise e -> exists msg, e = ValueError msg.
Proof.
  destruct v as [s|n|[|]]; simpl; try done.
  unfold str_int. destruct (_ <? _)%nat; [|done]. intros [= <-]. by eexists.
Qed.

Lemma formats_true (v : value) :
  formats v = true <-> exists s, py_str v = Ret s.
Proof.
  unfold formats. destruct (py_str v) as [s|e]; split; try done.
  - by eexists.
  - by intros [s' ?].
Qed.

Lemma formats_false (v : value) :
  formats v = false <-> exists msg, py_str v = Raise (ValueError msg).
Proof.
  unfold formats. destruct (py_str v) as [s|e] eqn:E; split; try done.
  - by intros [msg ?].
  - intros _. destruct (py_str_Raise _ _ E) as [msg ->]. by eexists.
Qed.

Lemma formats_not_truthy (v : value) : truthy v = false -> formats v = true.
Proof.
  destruct v as [s|n|[|]]; try done. simpl.
  intros ->%negb_false_iff%Z.eqb_eq. vm_compute. reflexivity.
Qed.

(** *** The headers *)

Lemma request_headers_cases (params : gmap string value) :
  (exists h, request_headers params = Ret h /\
     forall v, params !! "session_token" = Some v -> formats v = true) \/
  (exists v msg, request_headers params = Raise (ValueError msg) /\
     params !! "session_token" = Some v /\ formats v = false).
Proof.
  unfold request_headers.
  destruct (params !! "session_token") as [v|] eqn:Hv; simpl default.
  - destruct (truthy v) eqn:Ht.
    + destruct (formats v) eqn:Hf.
      * apply formats_true in Hf as [s Hs]. rewrite Hs. simpl. left.
        eexists. split; [done|]. intros v' [= <-]. apply formats_true. by eexists.
      * pose proof Hf as [msg Hs]%formats_false. rewrite Hs. simpl. right.
        by exists v, msg.
    + left. eexists. split; [done|]. intros v' [= <-]. by apply formats_not_truthy.
  - left. eexists. split; [done|]. by intros v' [=].
Qed.

Lemma request_headers_token (params : gmap string value) (tok : option string) :
  token_is params tok ->
  exists h, request_headers params = Ret h /\
    h !! "Authorization" = bearer tok /\
    h !! "Content-Type" = Some "application/json".
Proof.
  unfold token_is, request_headers. intros ->.
  destruct tok as [[|c t]|]; simpl; eexists; (split; [done|]); done.
Qed.

Lemma request_headers_keys (params : gmap string value)
    (h : gmap string string) (k : string) :
  request_headers params = Ret h ->
  k <> "Content-Type" -> k <> "Authorization" ->
  h !! k = None.
Proof.
  unfold request_headers. intros H H1 H2.
  destruct (truthy _); [destruct (py_str _); [|done]|];
    simpl in H; injection H as <-;
    by rewrite ?lookup_insert_ne, lookup_singleton_ne.
Qed.

Lemma request_headers_content_type (params : gmap string value)
    (h : gmap string string) :
  request_headers params = Ret h ->
  h !! "Content-Type" = Some "application/json".
Proof.
  unfold request_headers. intros H.
  destruct (truthy _); [destruct (py_str _); [|done]|];
    simpl in H; by injection H as <-.
Qed.

(** *** The request *)

(** What a request that is built looks like. *)
Lemma request_of_Some (BASE tool_name : string) (params : gmap string value)
    (req : request) :
  request_of BASE tool_name params = Ret (Some req) ->
  request_headers params = Ret (headers req) /\
  ((tool_name = "create_task" /\ method req = POST /\
    url req = BASE +:+ "/api/tasks/" /\
    json_body req =
      Some (<[ "title" := default (VStr EmptyString) (params !! "title") ]>
            {[ "description" :=
                 default (VStr EmptyString) (params !! "description") ]})) \/
   (tool_name = "get_tasks" /\ method req = GET /\
    url req = BASE +:+ "/api/tasks/" /\ json_body req = None) \/
   (tool_name = "update_task" /\
    exists v id_text,
      params !! "task_id" = Some v /\ py_str v = Ret id_text /\
      method req = PUT /\ url req = BASE +:+ "/api/tasks/" +:+ id_text /\
      json_body req = Some (update_body params)) \/
   (tool_name = "delete_task" /\
    exists v id_text,
      params !! "task_id" = Some v /\ py_str v = Ret id_text /\
      method req = DELETE /\ url req = BASE +:+ "/api/tasks/" +:+ id_text /\
      json_body req = None)).
Proof.
  unfold request_of.
  destruct (request_headers params) as [h|e]; [|done]. unfold obind at 1.
  destruct (decide (tool_name = "create_task")) as [->|N1].
  { intros [= <-]. split; [done|]. by left. }
  destruct (decide (tool_name = "get_tasks")) as [->|N2].
  { intros [= <-]. split; [done|]. right. by left. }
  destruct (decide (tool_name = "update_task")) as [->|N3].
  { unfold getitem. destruct (params !! "task_id") as [v|]; [|done].
    unfold obind at 1. destruct (py_str v) as [id_text|e] eqn:Hs; [|done].
    intros [= <-]. split; [done|]. right. right. left.
    split; [done|]. by exists v, id_text. }
  destruct (decide (tool_name = "delete_task")) as [->|N4]; [|done].
  unfold getitem. destruct (params !! "task_id") as [v|]; [|done].
  unfold obind at 1. destruct (py_str v) as [id_text|e] eqn:Hs; [|done].
  intros [= <-]. split; [done|]. right. right. right.
  split; [done|]. by exists v, id_text.
Qed.

(** A known operation whose parameters hold what it reads, in a form that
    [str] can format, has a request to send. *)
Lemma request_of_sends (BASE tool_name : string) (params : gmap string value) :
  tool_name ∈ known_operations ->
  (tool_name = "update_task" \/ tool_name = "delete_task" ->
   is_Some (params !! "task_id")) ->
  formats_all tool_name params ->
  exists req, request_of BASE tool_name params = Ret (Some req).
Proof.
  intros Hk Hid [Htok Hfmt]. unfold request_of.
  destruct (request_headers_cases params) as [(h & -> & _)|(v & msg & _ & Hv & Hf)].
  2: { rewrite (Htok v Hv) in Hf. done. }
  unfold obind at 1.
  apply known_operations_elem in Hk as [->|[->|[->| ->]]].
  - by eexists.
  - by eexists.
  - destruct Hid as [v Hv]; [by left|].
    rewrite !decide_False, decide_True by done.
    unfold getitem. rewrite Hv. unfold obind at 1.
    pose proof (Hfmt (or_introl eq_refl) v Hv) as [s ->]%formats_true. by eexists.
  - destruct Hid as [v Hv]; [by right|].
    rewrite !decide_False, decide_True by done.
    unfold getitem. rewrite Hv. unfold obind at 1.
    pose proof (Hfmt (or_intror eq_refl) v Hv) as [s ->]%formats_true. by eexists.
Qed.

(** An unknown operation has nothing to send, once the headers are built. *)
Lemma request_of_unknown (BASE tool_name : string) (params : gmap string value) :
  tool_name ∉ known_operations ->
  (forall v, params !! "session_token" = Some v -> formats v = true) ->
  request_of BASE tool_name params = Ret None.
Proof.
  intros Hn Htok. unfold request_of.
  destruct (request_headers_cases params) as [(h & -> & _)|(v & msg & _ & Hv & Hf)].
  2: { rewrite (Htok v Hv) in Hf. done. }
  unfold obind. rewrite !decide_False; [done|..];
    intros ->; apply Hn, known_operations_elem; tauto.
Qed.

(** No request is built exactly when the operation is unknown, or needs a
    [task_id] that is missing, or has to format an integer beyond the limit of
    [str]. *)
Lemma request_of_no_request (BASE tool_name : string)
    (params : gmap string value) :
  (forall req, request_of BASE tool_name params <> Ret (Some req)) <->
  tool_name ∉ known_operations \/ lacks_task_id tool_name params \/
  format_fails tool_name params.
Proof.
  unfold lacks_task_id, format_fails. split.
  - intros Hno.
    destruct (request_headers_cases params) as [(h & Hh & Htok)|(v & msg & _ & Hv & Hf)].
    2: { right. right. left. by exists v. }
    destruct (decide (tool_name ∈ known_operations)) as [Hk|Hk]; [|by left].
    right.
    destruct (decide (tool_name = "update_task" \/ tool_name = "delete_task"))
      as [Hud|Hud].
    + destruct (params !! "task_id") as [v|] eqn:Hv; [|by left].
      right. right. split; [done|]. exists v. split; [done|].
      destruct (formats v) eqn:Hf; [|done].
      destruct (request_of_sends BASE tool_name params Hk) as [req Hreq].
      * intros _. rewrite Hv. by eexists.
      * split; [done|]. intros _ v' Hv'. congruence.
      * by destruct (Hno req).
    + destruct (request_of_sends BASE tool_name params Hk) as [req Hreq].
      * by intros ?.
      * split; [done|]. by intros ?.
      * by destruct (Hno req).
  - intros H req Hreq.
    destruct (request_of_Some _ _ _ _ Hreq) as [Hh Hcases].
    destruct H as [Hn|[[Hud Hv]|[(v & Hv & Hf)|[Hud (v & Hv & Hf)]]]].
    + apply Hn, known_operations_elem. tauto.
    + destruct Hcases as [[-> _]|[[-> _]|[[_ (v & s & Hv' & _)]|[_ (v & s & Hv' & _)]]]];
        [by destruct Hud|by destruct Hud|congruence..].
    + destruct (request_headers_cases params)
        as [(h & _ & Htok)|(v' & msg & Hh' & _)]; [|congruence].
      rewrite (Htok v Hv) in Hf. done.
    + destruct Hcases
        as [[-> _]|[[-> _]|[[_ (v' & s & Hv' & Hs & _)]|[_ (v' & s & Hv' & Hs & _)]]]];
        [by destruct Hud|by destruct Hud|..];
        assert (v' = v) as -> by congruence;
        unfold formats in Hf; by rewrite Hs in Hf.
Qed.

Lemma update_body_keys (params : gmap string value) (k : string) :
  k <> "title" -> k <> "description" -> k <> "completed" ->
  update_body params !! k = None.
Proof.
  intros H1 H2 H3. unfold update_body.
  destruct (params !! "title"), (params !! "description");
    by rewrite ?lookup_insert_ne, lookup_singleton_ne.
Qed.

(** The request depends on the parameters the operation reads only. *)
Lemma request_of_ext (BASE tool_name : string) (p q : gmap string value) :
  (forall k, k ∈ relevant_keys tool_name -> p !! k = q !! k) ->
  request_of BASE tool_name p = request_of BASE tool_name q.
Proof.
  unfold relevant_keys, request_of, request_headers, update_body, getitem.
  intros H. repeat case_decide.
  - rewrite (H "session_token"), (H "title"), (H "description");
      [done|repeat constructor..].
  - rewrite (H "session_token"); [done|repeat constructor].
  - rewrite (H "session_token"), (H "title"), (H "description"), (H "task_id");
      [done|repeat constructor..].
  - rewrite (H "session_token"), (H "task_id"); [done|repeat constructor..].
  - rewrite (H "session_token"); [done|repeat constructor].
Qed.

Lemma result_of_response_returns (tool_name : string) (r : response) :
  (tool_name = "get_tasks" -> status_code r = 200 -> exists j, json r = Ret j) ->
  exists result, result_of_response tool_name r = Ret result.
Proof.
  intros Hj. unfold result_of_response. case_decide as Hg; [|by eauto].
  destruct (status_code r =? 200) eqn:Hst; [|by eauto].
  apply Z.eqb_eq in Hst. destruct (Hj Hg Hst) as [j ->]. simpl. eauto.
Qed.

End DispatcherFacts.

(** * Properties of the dispatcher *)

Section DispatcherClaims.
Import DispatcherFacts.

Lemma success_status_create (status : Z) :
  success_status "create_task" status = true <-> status = 200 \/ status = 201.
Proof.
  unfold success_status. rewrite decide_True by done.
  rewrite orb_true_iff, !Z.eqb_eq. done.
Qed.

Lemma success_status_other (tool_name : string) (status : Z) :
  tool_name <> "create_task" ->
  success_status tool_name status = true <-> status = 200.
Proof.
  intros H. unfold success_status. rewrite decide_False by done.
  apply Z.eqb_eq.
Qed.

(** C4, as stated, fails in the direction from the message to the status: a
    response with status 500 whose body is the text of the success message
    makes the dispatcher return that very text. *)
Lemma success_message_without_success_status :
  fst (_execute_mcp_tool local_base (respond misleading_error) "create_task"
         milk_params []) = Ret "Task added successfully." /\
  status_code misleading_error = 500 /\
  ~ (status_code misleading_error = 200 \/ status_code misleading_error = 201) /\
  success_status "create_task" (status_code misleading_error) = false.
Proof.
  split; [vm_compute; reflexivity|]. split; [reflexivity|].
  split; [|reflexivity]. intros [H|H]; discriminate H.
Qed.

(** C4 (amended): when create, update or delete receives a backend response,
    the dispatcher returns the operation's fixed success message if the
    success condition holds (status 200 or 201 for create, status 200 for
    update and delete) and the raw response body text otherwise.  So, unless
    the body is itself the text of the success message, the success message is
    returned exactly when the success condition holds. *)
Theorem dispatcher_result_follows_status
    (BASE : string) (backend : request -> outcome response)
    (tool_name : string) (params : gmap string value)
    (req : request) (r : response) (res : outcome string) :
  tool_name = "create_task" \/ tool_name = "update_task" \/
    tool_name = "delete_task" ->
  _execute_mcp_tool BASE backend tool_name params [] = (res, [HttpCall req]) ->
  backend req = Ret r ->
  res = Ret (if success_status tool_name (status_code r)
             then success_message tool_name else text r) /\
  (text r <> success_message tool_name ->
   (res = Ret (success_message tool_name) <->
    success_status tool_name (status_code r) = true)).
Proof.
  intros Htool Hrun Hb.
  assert (res = Ret (if success_status tool_name (status_code r)
                     then success_message tool_name else text r)) as ->.
  { rewrite execute_run in Hrun.
    destruct (request_of BASE tool_name params) as [[req0|]|e]; [|done..].
    apply pair_equal_spec in Hrun as [<- Hreq].
    assert (req0 = req) as -> by (simpl in Hreq; congruence).
    rewrite Hb. unfold obind, result_of_response.
    rewrite decide_False; [done|]. by destruct Htool as [->|[->| ->]]. }
  split; [done|]. intros Hne.
  destruct (success_status tool_name (status_code r)); split; congruence.
Qed.

Lemma dispatcher_result_follows_status_witness :
  _execute_mcp_tool local_base (respond bad_data) "create_task" milk_params [] =
    (Ret "bad data", [HttpCall milk_request]) /\
  Ret "bad data" =
    Ret (if success_status "create_task" (status_code bad_data)
         then success_message "create_task" else text bad_data) /\
  (text bad_data <> success_message "create_task" ->
   (Ret "bad data" = Ret (success_message "create_task") <->
    success_status "create_task" (status_code bad_data) = true)).
Proof.
  assert (_execute_mcp_tool local_base (respond bad_data) "create_task"
            milk_params [] = (Ret "bad data", [HttpCall milk_request])) as Hrun.
  { vm_compute. reflexivity. }
  split; [exact Hrun|].
  apply (dispatcher_result_follows_status local_base (respond bad_data)
           "create_task" milk_params milk_request bad_data (Ret "bad data")).
  - left. reflexivity.
  - exact Hrun.
  - reflexivity.
Defined.

(** C5, as stated, fails: the dispatcher raises [KeyError] when update or
    delete is asked for without a [task_id]; it lets the exceptions of the
    HTTP client through; and it raises [ValueError], before any request, when
    the [task_id] or the session token it formats is an integer of more than
    4300 digits. *)
Lemma dispatcher_can_raise :
  _execute_mcp_tool local_base (respond created) "delete_task" ∅ [] =
    (Raise (KeyError "task_id"), []) /\
  fst (_execute_mcp_tool local_base unreachable "create_task" milk_params []) =
    Raise (ExternalError "All connection attempts failed") /\
  _execute_mcp_tool local_base (respond created) "delete_task"
    {[ "task_id" := VInt ten_to_4300 ]} [] =
    (Raise (ValueError too_long_for_str), []) /\
  _execute_mcp_tool local_base (respond created) "get_tasks"
    {[ "session_token" := VInt ten_to_4300 ]} [] =
    (Raise (ValueError too_long_for_str), []).
Proof.
  split; [vm_compute; reflexivity|]. split; [vm_compute; reflexivity|].
  split; vm_compute; reflexivity.
Qed.

(** C5 (amended): the dispatcher returns a string, without raising, for every
    operation name and parameter mapping such that the mapping holds a
    [task_id] when the operation is update or delete, the values it formats
    (the session token, and the [task_id] for update and delete) are within the
    limit of [str], the HTTP client returns a response, and the body of a list
    response with status 200 is JSON.  Whenever a response does not meet the
    success condition of the operation, the result is the raw response body
    text.  An unknown operation name returns [Unknown action] and sends
    nothing. *)
Theorem dispatcher_returns_when_backend_answers
    (BASE : string) (backend : request -> outcome response)
    (tool_name : string) (params : gmap string value) :
  (tool_name = "update_task" \/ tool_name = "delete_task" ->
   is_Some (params !! "task_id")) ->
  formats_all tool_name params ->
  (forall req, exists r, backend req = Ret r) ->
  (forall req r, backend req = Ret r -> tool_name = "get_tasks" ->
     status_code r = 200 -> exists j, json r = Ret j) ->
  (exists result : string,
     fst (_execute_mcp_tool BASE backend tool_name params []) = Ret result) /\
  (forall req r,
     snd (_execute_mcp_tool BASE backend tool_name params []) = [HttpCall req] ->
     backend req = Ret r ->
     success_status tool_name (status_code r) = false ->
     fst (_execute_mcp_tool BASE backend tool_name params []) = Ret (text r)) /\
  (tool_name ∉ known_operations ->
   _execute_mcp_tool BASE backend tool_name params [] =
     (Ret "Unknown action", [])).
Proof.
  intros Hid Hfmt Hresp Hjson. rewrite execute_run.
  destruct (decide (tool_name ∈ known_operations)) as [Hk|Hk].
  - destruct (request_of_sends BASE tool_name params Hk Hid Hfmt) as [req0 ->].
    simpl fst. simpl snd. split; [|split; [|done]].
    + destruct (Hresp req0) as [r Hr]. rewrite Hr. simpl.
      apply result_of_response_returns. intros Hg Hst. by eapply Hjson.
    + intros req r [= ->] Hr Hfail. rewrite Hr. simpl.
      unfold result_of_response. rewrite Hfail.
      case_decide as Hg; [|done]. subst tool_name.
      unfold success_status in Hfail. rewrite decide_False in Hfail by done.
      by rewrite Hfail.
  - rewrite (request_of_unknown BASE tool_name params Hk (proj1 Hfmt)).
    simpl. split; [by eauto|]. split; [|done]. intros req r [=].
Qed.

Lemma dispatcher_returns_when_backend_answers_witness :
  _execute_mcp_tool local_base (respond bad_data) "update_task" done_7_params [] =
    (Ret "bad data", [HttpCall done_7_request]) /\
  (exists result : string,
     fst (_execute_mcp_tool local_base (respond bad_data) "update_task"
            done_7_params []) = Ret result) /\
  (forall req r,
     snd (_execute_mcp_tool local_base (respond bad_data) "update_task"
            done_7_params []) = [HttpCall req] ->
     respond bad_data req = Ret r ->
     success_status "update_task" (status_code r) = false ->
     fst (_execute_mcp_tool local_base (respond bad_data) "update_task"
            done_7_params []) = Ret (text r)) /\
  ("update_task" ∉ known_operations ->
   _execute_mcp_tool local_base (respond bad_data) "update_task" done_7_params [] =
     (Ret "Unknown action", [])).
Proof.
  split; [vm_compute; reflexivity|].
  apply (dispatcher_returns_when_backend_answers local_base (respond bad_data)
           "update_task" done_7_params).
  - intros _. exists (VInt 7). vm_compute. reflexivity.
  - split.
    + intros v Hv. vm_compute in Hv. injection Hv as <-. reflexivity.
    + intros _ v Hv. vm_compute in Hv. injection Hv as <-. vm_compute. reflexivity.
  - intros req. exists bad_data. reflexivity.
  - intros req r _ H. discriminate H.
Defined.

(** C8: every request the dispatcher sends carries the header
    [Authorization: Bearer <token>] when the session token of the parameter
    mapping is a non-empty string, and no [Authorization] header when the token
    is absent or is the empty string.  (The [Content-Type] header is always
    there.) *)
Theorem authorization_header_follows_token
    (BASE : string) (backend : request -> outcome response)
    (tool_name : string) (params : gmap string value)
    (tok : option string) (req : request) :
  token_is params tok ->
  HttpCall req ∈ snd (_execute_mcp_tool BASE backend tool_name params []) ->
  headers req !! "Authorization" = bearer tok /\
  headers req !! "Content-Type" = Some "application/json".
Proof.
  intros Htok Hin. rewrite execute_run in Hin.
  destruct (request_of BASE tool_name params) as [[req0|]|e] eqn:Hreq;
    simpl in Hin; [|by apply elem_of_nil in Hin..].
  apply list_elem_of_singleton in Hin. injection Hin as ->.
  destruct (request_of_Some _ _ _ _ Hreq) as [Hh _].
  destruct (request_headers_token params tok Htok) as (h & Hh' & Ha & Hc).
  rewrite Hh in Hh'. by injection Hh' as <-.
Qed.

Lemma authorization_header_follows_token_witness :
  token_is token_params (Some "abc") /\
  HttpCall token_request ∈
    snd (_execute_mcp_tool local_base (respond created) "create_task"
           token_params []) /\
  headers token_request !! "Authorization" = bearer (Some "abc") /\
  headers token_request !! "Content-Type" = Some "application/json".
Proof.
  assert (token_is token_params (Some "abc")) as Htok.
  { vm_compute. reflexivity. }
  assert (snd (_execute_mcp_tool local_base (respond created) "create_task"
                 token_params []) = [HttpCall token_request]) as Hrun.
  { vm_compute. reflexivity. }
  assert (HttpCall token_request ∈
            snd (_execute_mcp_tool local_base (respond created) "create_task"
                   token_params [])) as Hin.
  { rewrite Hrun. apply list_elem_of_here. }
  split; [exact Htok|]. split; [exact Hin|].
  exact (authorization_header_follows_token local_base (respond created)
           "create_task" token_params (Some "abc") token_request Htok Hin).
Defined.

Example authorization_header_examples :
  request_headers {[ "session_token" := VStr "abc" ]} =
    Ret (<[ "Authorization" := "Bearer abc" ]>
         {[ "Content-Type" := "application/json" ]}) /\
  request_headers {[ "session_token" := VStr EmptyString ]} =
    Ret {[ "Content-Type" := "application/json" ]} /\
  request_headers ∅ = Ret {[ "Content-Type" := "application/json" ]} /\
  request_headers {[ "session_token" := VInt 42 ]} =
    Ret (<[ "Authorization" := "Bearer 42" ]>
         {[ "Content-Type" := "application/json" ]}).
Proof. repeat (split; [vm_compute; reflexivity|]). vm_compute. reflexivity. Qed.

End DispatcherClaims.

(** * The orchestrator *)

Module ProcessFacts.
Import PyStrFacts NumeralFacts ClassifierFacts DispatcherFacts.

(** The classifier raises the [ValueError] of [int], or yields nothing, or
    yields a result that passes the test [if tool_name and params], names a
    known operation, and carries a [task_id] (an integer that is not negative
    and that [str] can format) when the operation reads one. *)
Lemma identify_result (user_input user_id : string) :
  (exists op params,
     _identify_mcp_tool_and_params user_input user_id = Ret (Some op, Some params) /\
     is_empty op = false /\ params <> ∅ /\ op ∈ known_operations /\
     (forall v, params !! "task_id" = Some v ->
        exists n, v = VInt n /\ 0 <= n /\ formats v = true) /\
     (op = "update_task" \/ op = "delete_task" -> is_Some (params !! "task_id"))) \/
  (_identify_mcp_tool_and_params user_input user_id = Ret (None, None)) \/
  (exists msg,
     _identify_mcp_tool_and_params user_input user_id = Raise (ValueError msg) /\
     first_run_fits user_input = false).
Proof.
  destruct (any_in create_keywords (lower user_input)) eqn:Hc.
  - left. destruct (identify_create user_input user_id Hc) as (w & pre & post & _ & _ & ->).
    do 2 eexists. split; [done|]. split; [done|].
    split; [apply map_non_empty_singleton|].
    split; [unfold known_operations; repeat constructor|].
    split; [|by intros [|]].
    intros v Hv. by rewrite lookup_singleton_ne in Hv.
  - rewrite (identify_not_create _ _ Hc). cbv zeta.
    destruct (wants_list _).
    { left. do 2 eexists. split; [done|]. split; [done|].
      split; [apply map_non_empty_singleton|].
      split; [unfold known_operations; repeat constructor|].
      split; [|by intros [|]].
      intros v Hv. by rewrite lookup_singleton_ne in Hv. }
    destruct (any_in delete_keywords _).
    { destruct (first_id_cases user_input)
        as [(_ & n & -> & _ & Hn & Hf)|(Hfit & msg & ->)]; simpl.
      - left. do 2 eexists. split; [done|]. split; [done|].
        split; [apply map_non_empty_singleton|].
        split; [unfold known_operations; repeat constructor|].
        split.
        + intros v Hv. rewrite lookup_singleton_eq in Hv. injection Hv as <-.
          by exists n.
        + intros _. rewrite lookup_singleton_eq. by eexists.
      - right. right. by exists msg. }
    destruct (any_in update_keywords _).
    { destruct (first_id_cases user_input)
        as [(_ & n & -> & _ & Hn & Hf)|(Hfit & msg & ->)]; simpl.
      - left. do 2 eexists. split; [done|]. split; [done|].
        split; [apply insert_non_empty|].
        split; [unfold known_operations; repeat constructor|].
        split.
        + intros v Hv. rewrite lookup_insert_eq in Hv. injection Hv as <-.
          by exists n.
        + intros _. rewrite lookup_insert_eq. by eexists.
      - right. right. by exists msg. }
    right. by left.
Qed.

(** The tool path of [process]. *)
Lemma process_try_tool (BASE : string) (backend : request -> outcome response)
    (llm : string -> string -> outcome string) (user_input : string)
    (history : list (gmap string string)) (user_id : string)
    (conversation_id auth_token : option string)
    (op : string) (params : gmap string value) (tr : list event) :
  _identify_mcp_tool_and_params user_input user_id = Ret (Some op, Some params) ->
  process_try BASE backend llm user_input history user_id conversation_id
    auth_token tr =
  let params' := <[ "session_token" := VStr (str_or auth_token EmptyString) ]> params in
  match _execute_mcp_tool BASE backend op params' tr with
  | (Ret tool_result, tr1) =>
      (match llm MODEL_NAME (tool_prompt user_input tool_result) with
       | Ret content => Ret (content, [{| name := op; arguments := params' |}])
       | Raise e => Raise e
       end,
       tr1 ++ [ModelCall MODEL_NAME (tool_prompt user_input tool_result)])
  | (Raise e, tr1) => (Raise e, tr1)
  end.
Proof.
  intros Hi.
  destruct (identify_result user_input user_id)
    as [(op' & params' & Hi' & Hop & Hpar & _)|[Hi'|(msg & Hi' & _)]];
    rewrite Hi in Hi'; [|done..].
  injection Hi' as <- <-.
  unfold process_try, bind at 1, lift. rewrite Hi. cbv beta iota zeta.
  rewrite Hop, bool_decide_false by done.
  change (negb false && negb false) with true. cbv iota.
  unfold bind at 1. destruct (_execute_mcp_tool _ _ _ _ _) as [[res|e] tr1]; [|done].
  unfold bind, model_call, ret. cbv beta iota zeta.
  by destruct (llm _ _).
Qed.

(** The chat path of [process]. *)
Lemma chat_path_run (llm : string -> string -> outcome string)
    (user_input : string) (tr : list event) :
  chat_path llm user_input tr =
  (match llm MODEL_NAME (chat_prompt user_input) with
   | Ret content => Ret (content, [])
   | Raise e => Raise e
   end,
   tr ++ [ModelCall MODEL_NAME (chat_prompt user_input)]).
Proof.
  unfold chat_path, bind, model_call, ret. cbv beta iota zeta.
  by destruct (llm _ _).
Qed.

Lemma process_try_chat (BASE : string) (backend : request -> outcome response)
    (llm : string -> string -> outcome string) (user_input : string)
    (history : list (gmap string string)) (user_id : string)
    (conversation_id auth_token : option string) (tr : list event) :
  _identify_mcp_tool_and_params user_input user_id = Ret (None, None) ->
  process_try BASE backend llm user_input history user_id conversation_id
    auth_token tr = chat_path llm user_input tr.
Proof.
  intros Hi. unfold process_try, bind at 1, lift. by rewrite Hi.
Qed.

(** An exception of the classifier leaves the [try] block before any call. *)
Lemma process_try_raise (BASE : string) (backend : request -> outcome response)
    (llm : string -> string -> outcome string) (user_input : string)
    (history : list (gmap string string)) (user_id : string)
    (conversation_id auth_token : option string) (tr : list event) (e : exn) :
  _identify_mcp_tool_and_params user_input user_id = Raise e ->
  process_try BASE backend llm user_input history user_id conversation_id
    auth_token tr = (Raise e, tr).
Proof.
  intros Hi. unfold process_try, bind at 1, lift. by rewrite Hi.
Qed.

Lemma apology_prefix (e : exn) :
  startswith "I'm sorry, I encountered an error:" (apology e) = true.
Proof.
  apply startswith_spec. exists (" " +:+ str_exn e). reflexivity.
Qed.

Lemma apology_contains (e : exn) : contains (str_exn e) (apology e) = true.
Proof.
  apply contains_spec.
  exists "I'm sorry, I encountered an error: ", EmptyString.
  by rewrite app_nil_r.
Qed.

(** What the classifier yields, with the session token that [process] adds,
    is within what the dispatcher can format. *)
Lemma classified_formats_all (user_input user_id : string)
    (auth_token : option string) (op : string) (params : gmap string value) :
  _identify_mcp_tool_and_params user_input user_id = Ret (Some op, Some params) ->
  op ∈ known_operations /\
  (op = "update_task" \/ op = "delete_task" ->
   is_Some (with_token auth_token params !! "task_id")) /\
  formats_all op (with_token auth_token params).
Proof.
  intros Hi.
  destruct (identify_result user_input user_id)
    as [(op' & params' & Hi' & _ & _ & Hk & Hv & Hid)|[Hi'|(msg & Hi' & _)]];
    rewrite Hi in Hi'; [|done..].
  injection Hi' as <- <-. unfold with_token.
  split; [done|]. split.
  - intros Hud. rewrite lookup_insert_ne by done. by apply Hid.
  - split.
    + intros v. rewrite lookup_insert_eq. by intros [= <-].
    + intros _ v. rewrite lookup_insert_ne by done.
      intros H. by destruct (Hv v H) as (n & _ & _ & ?).
Qed.

(** The tool path of [process], in terms of the request sent. *)
Lemma process_run_tool (BASE : string) (backend : request -> outcome response)
    (llm : string -> string -> outcome string) (user_input : string)
    (history : list (gmap string string)) (user_id : string)
    (conversation_id auth_token : option string)
    (op : string) (params : gmap string value) :
  _identify_mcp_tool_and_params user_input user_id = Ret (Some op, Some params) ->
  exists req,
    request_of BASE op (with_token auth_token params) = Ret (Some req) /\
    forall tr,
      process BASE backend llm user_input history user_id conversation_id
        auth_token tr =
      match obind (backend req) (result_of_response op) with
      | Ret tool_result =>
          (match llm MODEL_NAME (tool_prompt user_input tool_result) with
           | Ret content =>
               (content, [ {| name := op;
                              arguments := with_token auth_token params |} ])
           | Raise e => (apology e, [])
           end,
           tr ++ [HttpCall req;
                  ModelCall MODEL_NAME (tool_prompt user_input tool_result)])
      | Raise e => ((apology e, []), tr ++ [HttpCall req])
      end.
Proof.
  intros Hi.
  destruct (classified_formats_all user_input user_id auth_token op params Hi)
    as (Hk & Hid & Hfmt).
  destruct (request_of_sends BASE op _ Hk Hid Hfmt) as [req Hreq].
  exists req. split; [done|]. intros tr. unfold process.
  rewrite (process_try_tool _ _ _ _ _ _ _ _ _ _ _ Hi). cbv zeta.
  fold (with_token auth_token params). rewrite execute_run, Hreq.
  destruct (obind (backend req) (result_of_response op)) as [res|e]; [|done].
  rewrite <- List.app_assoc. simpl. by destruct (llm _ _).
Qed.

Lemma process_run_chat (BASE : string) (backend : request -> outcome response)
    (llm : string -> string -> outcome string) (user_input : string)
    (history : list (gmap string string)) (user_id : string)
    (conversation_id auth_token : option string) (tr : list event) :
  _identify_mcp_tool_and_params user_input user_id = Ret (None, None) ->
  process BASE backend llm user_input history user_id conversation_id
    auth_token tr =
  ((match llm MODEL_NAME (chat_prompt user_input) with
    | Ret content => content
    | Raise e => apology e
    end, []),
   tr ++ [ModelCall MODEL_NAME (chat_prompt user_input)]).
Proof.
  intros Hi. unfold process.
  rewrite (process_try_chat _ _ _ _ _ _ _ _ _ Hi), chat_path_run.
  by destruct (llm _ _).
Qed.

Lemma process_run_raise (BASE : string) (backend : request -> outcome response)
    (llm : string -> string -> outcome string) (user_input : string)
    (history : list (gmap string string)) (user_id : string)
    (conversation_id auth_token : option string) (tr : list event) (e : exn) :
  _identify_mcp_tool_and_params user_input user_id = Raise e ->
  process BASE backend llm user_input history user_id conversation_id
    auth_token tr = ((apology e, []), tr).
Proof.
  intros Hi. unfold process. by rewrite (process_try_raise _ _ _ _ _ _ _ _ _ _ Hi).
Qed.

Lemma with_token_authorization (auth_token : option string)
    (params : gmap string value) (h : gmap string string) :
  request_headers (with_token auth_token params) = Ret h ->
  h !! "Authorization" = bearer auth_token.
Proof.
  intros Hh.
  destruct (request_headers_token (with_token auth_token params)
              (Some (str_or auth_token EmptyString))) as (h' & Hh' & Ha & _).
  { unfold token_is, with_token. by rewrite lookup_insert_eq. }
  rewrite Hh in Hh'. injection Hh' as <-. rewrite Ha.
  by destruct auth_token as [[|c t]|].
Qed.

(** Both prompts quote the user's text as it is. *)
Lemma tool_prompt_quotes_input (user_input tool_result : string) :
  contains user_input (tool_prompt user_input tool_result) = true.
Proof.
  apply contains_spec. unfold tool_prompt.
  exists (nl +:+ "User request: " +:+ dquote). eexists.
  by rewrite !app_assoc.
Qed.

Lemma chat_prompt_quotes_input (user_input : string) :
  contains user_input (chat_prompt user_input) = true.
Proof.
  apply contains_spec. unfold chat_prompt.
  exists (nl +:+ system_prompt +:+ nl +:+ nl +:+ "User said: " +:+ dquote).
  eexists. by rewrite !app_assoc.
Qed.

(** Off the list branch the classification does not read the caller
    identity. *)
Lemma identify_off_list (user_input user_id user_id' : string) :
  any_in create_keywords (lower user_input) = true \/
    wants_list (lower user_input) = false ->
  _identify_mcp_tool_and_params user_input user_id =
  _identify_mcp_tool_and_params user_input user_id'.
Proof.
  destruct (any_in create_keywords (lower user_input)) eqn:Hc.
  - intros _.
    destruct (identify_create user_input user_id Hc) as (w & pre & post & Hk & Ho & ->).
    destruct (identify_create user_input user_id' Hc)
      as (w' & pre' & post' & Hk' & Ho' & ->).
    pose proof (first_keyword_unique _ _ _ _ Hk Hk') as <-.
    by destruct (first_occurrence_unique _ _ _ _ _ _ Ho Ho') as [_ <-].
  - intros [?|Hl]; [done|].
    rewrite !(identify_not_create _ _ Hc). cbv zeta. by rewrite Hl.
Qed.

End ProcessFacts.

(** * Properties of the orchestrator *)

Section ProcessClaims.
Import PyStrFacts ClassifierFacts DispatcherFacts ProcessFacts.

(** C6: every exception of the flow of [process] ends in the apology: when an
    exception [e] leaves the [try] block, in particular when the classifier
    raises it (before any call), when the dispatcher raises it, or when the
    model call raises it on the tool path or on the chat path, [process]
    returns the reply [I'm sorry, I encountered an error: ] followed by the
    string representation of [e], with an empty list of tool calls. *)
Theorem process_apologises_for_every_exception
    (BASE : string) (backend : request -> outcome response)
    (llm : string -> string -> outcome string) (user_input : string)
    (history : list (gmap string string)) (user_id : string)
    (conversation_id auth_token : option string)
    (tr : list event) (e : exn) :
  let out := fst (process BASE backend llm user_input history user_id
                    conversation_id auth_token tr) in
  let with_token (params : gmap string value) :=
    <[ "session_token" := VStr (str_or auth_token EmptyString) ]> params in
  (fst (process_try BASE backend llm user_input history user_id
          conversation_id auth_token tr) = Raise e ->
   out = (apology e, [])) /\
  (_identify_mcp_tool_and_params user_input user_id = Raise e ->
   process BASE backend llm user_input history user_id conversation_id
     auth_token tr = ((apology e, []), tr)) /\
  (forall op params,
     _identify_mcp_tool_and_params user_input user_id = Ret (Some op, Some params) ->
     fst (_execute_mcp_tool BASE backend op (with_token params) tr) = Raise e ->
     out = (apology e, [])) /\
  (forall op params tool_result tr1,
     _identify_mcp_tool_and_params user_input user_id = Ret (Some op, Some params) ->
     _execute_mcp_tool BASE backend op (with_token params) tr =
       (Ret tool_result, tr1) ->
     llm MODEL_NAME (tool_prompt user_input tool_result) = Raise e ->
     out = (apology e, [])) /\
  (_identify_mcp_tool_and_params user_input user_id = Ret (None, None) ->
   llm MODEL_NAME (chat_prompt user_input) = Raise e ->
   out = (apology e, [])) /\
  apology e = "I'm sorry, I encountered an error: " +:+ str_exn e /\
  startswith "I'm sorry, I encountered an error:" (apology e) = true /\
  contains (str_exn e) (apology e) = true.
Proof.
  cbv zeta.
  split; [|split; [|split; [|split; [|split]]]].
  - unfold process.
    destruct (process_try _ _ _ _ _ _ _ _ _) as [[r|e'] tr']; simpl; [done|].
    by intros [= ->].
  - apply process_run_raise.
  - intros op params Hi He. unfold process.
    rewrite (process_try_tool _ _ _ _ _ _ _ _ _ _ _ Hi). cbv zeta.
    destruct (_execute_mcp_tool _ _ _ _ _) as [[res|e'] tr1]; [done|].
    simpl in He. by injection He as ->.
  - intros op params res tr1 Hi Hrun Hllm. unfold process.
    rewrite (process_try_tool _ _ _ _ _ _ _ _ _ _ _ Hi). cbv zeta.
    by rewrite Hrun, Hllm.
  - intros Hi Hllm. unfold process.
    by rewrite (process_try_chat _ _ _ _ _ _ _ _ _ Hi), chat_path_run, Hllm.
  - split; [done|]. split; [apply apology_prefix|apply apology_contains].
Qed.

Lemma process_apologises_for_every_exception_witness :
  fst (process_try local_base unreachable (model_says "ok") "delete task 42" []
         "u1" None None []) =
    Raise (ExternalError "All connection attempts failed") /\
  fst (process local_base unreachable (model_says "ok") "delete task 42" []
         "u1" None None []) =
    (apology (ExternalError "All connection attempts failed"), []).
Proof.
  assert (fst (process_try local_base unreachable (model_says "ok")
                 "delete task 42" [] "u1" None None []) =
          Raise (ExternalError "All connection attempts failed")) as Hrun.
  { vm_compute. reflexivity. }
  split; [exact Hrun|].
  destruct (process_apologises_for_every_exception local_base unreachable
              (model_says "ok") "delete task 42" [] "u1" None None []
              (ExternalError "All connection attempts failed")) as [H _].
  exact (H Hrun).
Defined.

(** C7: an input whose lowercased text contains none of the keywords and not
    the phrase [my tasks] is classified as (absent, absent); [process] then
    runs the chat path only: the single external call is the model call on the
    chat prompt, no request goes to the backend, and the reply comes with an
    empty list of tool calls. *)
Theorem no_keyword_takes_chat_path
    (BASE : string) (backend : request -> outcome response)
    (llm : string -> string -> outcome string) (user_input : string)
    (history : list (gmap string string)) (user_id : string)
    (conversation_id auth_token : option string) :
  any_in create_keywords (lower user_input) = false ->
  any_in list_keywords (lower user_input) = false ->
  contains "my tasks" (lower user_input) = false ->
  any_in delete_keywords (lower user_input) = false ->
  any_in update_keywords (lower user_input) = false ->
  _identify_mcp_tool_and_params user_input user_id = Ret (None, None) /\
  (forall tr,
     process_try BASE backend llm user_input history user_id conversation_id
       auth_token tr = chat_path llm user_input tr) /\
  (forall tr,
     process BASE backend llm user_input history user_id conversation_id
       auth_token tr =
     ((match llm MODEL_NAME (chat_prompt user_input) with
       | Ret content => content
       | Raise e => apology e
       end, []),
      tr ++ [ModelCall MODEL_NAME (chat_prompt user_input)])).
Proof.
  intros Hc Hl Hm Hd Hu.
  assert (_identify_mcp_tool_and_params user_input user_id = Ret (None, None)) as Hi.
  { rewrite (identify_not_create _ _ Hc). cbv zeta. unfold wants_list.
    by rewrite Hl, Hm, Hd, Hu. }
  split; [done|]. split.
  - intros tr. by apply process_try_chat.
  - intros tr. by apply process_run_chat.
Qed.

Lemma no_keyword_takes_chat_path_witness :
  _identify_mcp_tool_and_params "hello there" "u1" = Ret (None, None) /\
  (forall tr,
     process_try local_base unreachable (model_says "Hi!") "hello there" []
       "u1" None None tr = chat_path (model_says "Hi!") "hello there" tr) /\
  (forall tr,
     process local_base unreachable (model_says "Hi!") "hello there" []
       "u1" None None tr =
     ((match model_says "Hi!" MODEL_NAME (chat_prompt "hello there") with
       | Ret content => content
       | Raise e => apology e
       end, []),
      tr ++ [ModelCall MODEL_NAME (chat_prompt "hello there")])).
Proof.
  apply (no_keyword_takes_chat_path local_base unreachable (model_says "Hi!")
           "hello there" [] "u1" None None); reflexivity.
Defined.

(** C9: [process] returns at most one tool call: exactly one, naming the
    classified operation and carrying its parameters together with the session
    token, when the classifier yields an operation and no exception is raised;
    none when the classifier yields nothing, and none when an exception is
    caught. *)
Theorem process_returns_at_most_one_tool_call
    (BASE : string) (backend : request -> outcome response)
    (llm : string -> string -> outcome string) (user_input : string)
    (history : list (gmap string string)) (user_id : string)
    (conversation_id auth_token : option string) (tr : list event) :
  let run := process_try BASE backend llm user_input history user_id
               conversation_id auth_token tr in
  let calls := snd (fst (process BASE backend llm user_input history user_id
                           conversation_id auth_token tr)) in
  (length calls <= 1)%nat /\
  (forall op params,
     _identify_mcp_tool_and_params user_input user_id = Ret (Some op, Some params) ->
     (exists r, fst run = Ret r) ->
     calls = [ {| name := op;
                  arguments := <[ "session_token" :=
                                    VStr (str_or auth_token EmptyString) ]> params |} ]) /\
  (_identify_mcp_tool_and_params user_input user_id = Ret (None, None) ->
   calls = []) /\
  (forall e, fst run = Raise e -> calls = []).
Proof.
  cbv zeta. unfold process.
  destruct (identify_result user_input user_id)
    as [(op & params & Hi & _)|[Hi|(msg & Hi & _)]].
  - rewrite (process_try_tool _ _ _ _ _ _ _ _ _ _ _ Hi). cbv zeta.
    destruct (_execute_mcp_tool _ _ _ _ _) as [[res|e] tr1].
    + destruct (llm _ _) as [content|e]; simpl.
      * split; [lia|]. split; [|split; [by rewrite Hi|done]].
        intros op' params' Hi' _. rewrite Hi in Hi'. by injection Hi' as <- <-.
      * split; [lia|]. split; [|done]. by intros op' params' _ [r [=]].
    + simpl. split; [lia|]. split; [|done]. by intros op' params' _ [r [=]].
  - rewrite (process_try_chat _ _ _ _ _ _ _ _ _ Hi), chat_path_run.
    destruct (llm _ _) as [content|e]; simpl.
    + split; [lia|]. split; [|done]. intros op' params' Hi'. by rewrite Hi in Hi'.
    + split; [lia|]. split; [|done]. intros op' params' Hi'. by rewrite Hi in Hi'.
  - rewrite (process_try_raise _ _ _ _ _ _ _ _ _ _ Hi). simpl.
    split; [lia|]. split; [|done]. intros op' params' Hi'. by rewrite Hi in Hi'.
Qed.

Lemma process_returns_at_most_one_tool_call_witness :
  _identify_mcp_tool_and_params "mark done 7" "u1" =
    Ret (Some "update_task",
         Some (<[ "task_id" := VInt 7 ]> {[ "status" := VStr "completed" ]})) /\
  snd (fst (process local_base (respond created) (model_says "Done.")
              "mark done 7" [] "u1" None (Some "abc") [])) =
    [ {| name := "update_task";
         arguments := <[ "session_token" := VStr (str_or (Some "abc") EmptyString) ]>
                      (<[ "task_id" := VInt 7 ]> {[ "status" := VStr "completed" ]}) |} ].
Proof.
  assert (_identify_mcp_tool_and_params "mark done 7" "u1" =
            Ret (Some "update_task",
                 Some (<[ "task_id" := VInt 7 ]> {[ "status" := VStr "completed" ]})))
    as Hi.
  { vm_compute. reflexivity. }
  split; [exact Hi|].
  destruct (process_returns_at_most_one_tool_call local_base (respond created)
              (model_says "Done.") "mark done 7" [] "u1" None (Some "abc") [])
    as (_ & H & _).
  apply (H _ _ Hi).
  exists ("Done.",
          [ {| name := "update_task";
               arguments := <[ "session_token" := VStr "abc" ]>
                            (<[ "task_id" := VInt 7 ]>
                             {[ "status" := VStr "completed" ]}) |} ]).
  vm_compute. reflexivity.
Defined.

Example process_examples :
  fst (process local_base (respond created) (model_says "Added!")
         "add milk" [] "u1" None None []) =
    ("Added!", [ {| name := "create_task";
                    arguments := <[ "session_token" := VStr EmptyString ]>
                                 {[ "title" := VStr "milk" ]} |} ]) /\
  fst (process local_base (respond created) model_down
         "hello there" [] "u1" None None []) =
    ("I'm sorry, I encountered an error: Connection error.", []) /\
  fst (process local_base (respond created) (model_says "Hi!")
         "hello there" [] "u1" None None []) = ("Hi!", []).
Proof. repeat (split; [vm_compute; reflexivity|]). vm_compute. reflexivity. Qed.

(** A number of 4301 digits after [delete]: the classifier raises, nothing is
    called, and the reply is the apology with the message of [int]. *)
Example process_long_number_example :
  process local_base (respond created) (model_says "Done.")
    delete_4301_ones [] "u1" None None [] =
  (("I'm sorry, I encountered an error: Exceeds the limit (4300 digits) for integer string conversion: value has 4301 digits; use sys.set_int_max_str_digits() to increase the limit", []), []).
Proof. vm_compute. reflexivity. Qed.

End ProcessClaims.

(** * Further facts: substrings *)

Module SubstringFacts.
Import PyStrFacts.

Lemma contains_refl (s : string) : contains s s = true.
Proof.
  apply contains_spec. exists EmptyString, EmptyString. by rewrite app_nil_r.
Qed.

Lemma contains_trans (a b c : string) :
  contains a b = true -> contains b c = true -> contains a c = true.
Proof.
  intros (p1 & q1 & ->)%contains_spec (p2 & q2 & ->)%contains_spec.
  apply contains_spec. exists (p2 +:+ p1), (q1 +:+ q2).
  by rewrite !app_assoc.
Qed.

Lemma contains_suffix (pre s : string) : contains s (pre +:+ s) = true.
Proof. apply contains_spec. exists pre, EmptyString. by rewrite app_nil_r. Qed.

Lemma drop_suffix (n : nat) (s : string) : exists pre, s = pre +:+ drop n s.
Proof.
  revert s. induction n as [|n IH]; intros s; [by exists EmptyString|].
  destruct s as [|c s]; [by exists EmptyString|].
  destruct (IH s) as [pre E]. exists (String c pre). simpl.
  by rewrite app_cons, <- E.
Qed.

Lemma contains_drop (n : nat) (s : string) : contains (drop n s) s = true.
Proof.
  destruct (drop_suffix n s) as [pre E]. rewrite E at 2. apply contains_suffix.
Qed.

Lemma contains_strip (s : string) : contains (strip s) s = true.
Proof.
  destruct (strip_spec s) as (l & r & E & _). apply contains_spec. eauto.
Qed.

Lemma contains_removeprefix (p s : string) : contains (removeprefix p s) s = true.
Proof.
  unfold removeprefix. destruct (startswith p s);
    [apply contains_drop|apply contains_refl].
Qed.

Lemma contains_clean_title (rest : string) :
  contains (clean_title rest) rest = true.
Proof.
  unfold clean_title.
  eapply contains_trans; [apply contains_strip|].
  eapply contains_trans; [apply contains_removeprefix|].
  eapply contains_trans; [apply contains_removeprefix|apply contains_strip].
Qed.

Lemma clean_title_trimmed (rest : string) :
  not_space_start (clean_title rest) = true /\
  not_space_end (clean_title rest) = true.
Proof.
  unfold clean_title.
  destruct (strip_spec (removeprefix "to" (removeprefix "task" (strip rest))))
    as (l & r & _ & _ & _ & Hs & He). done.
Qed.

End SubstringFacts.

(** * Further properties of the classifier *)

Section ClassifierExtras.
Import PyStrFacts ClassifierFacts NumeralFacts SubstringFacts ProcessFacts.

(** X1: when no create keyword occurs and a list keyword or the phrase
    [my tasks] does, the classification is [get_tasks] with exactly one
    parameter, the caller identity, whatever digits and delete or update
    keywords the input also has. *)
Theorem list_request_carries_caller_identity (user_input user_id : string) :
  any_in create_keywords (lower user_input) = false ->
  wants_list (lower user_input) = true ->
  _identify_mcp_tool_and_params user_input user_id =
    Ret (Some "get_tasks", Some {[ "user_id" := VStr user_id ]}).
Proof.
  intros Hc Hl. rewrite (identify_not_create _ _ Hc). cbv zeta. by rewrite Hl.
Qed.

Lemma list_request_carries_caller_identity_witness :
  _identify_mcp_tool_and_params "Remove task 3 and show the rest" "u7" =
    Ret (Some "get_tasks", Some {[ "user_id" := VStr "u7" ]}).
Proof.
  apply (list_request_carries_caller_identity
           "Remove task 3 and show the rest" "u7"); reflexivity.
Defined.

(** X2: outside the list branch the caller identity plays no part: if the
    input has a create keyword, or has no list keyword and not the phrase
    [my tasks], two callers get the same classification. *)
Theorem only_list_reads_caller_identity (user_input user_id user_id' : string) :
  any_in create_keywords (lower user_input) = true \/
    wants_list (lower user_input) = false ->
  _identify_mcp_tool_and_params user_input user_id =
  _identify_mcp_tool_and_params user_input user_id'.
Proof.
  destruct (any_in create_keywords (lower user_input)) eqn:Hc.
  - intros _.
    destruct (identify_create user_input user_id Hc) as (w & pre & post & Hk & Ho & ->).
    destruct (identify_create user_input user_id' Hc)
      as (w' & pre' & post' & Hk' & Ho' & ->).
    pose proof (first_keyword_unique _ _ _ _ Hk Hk') as <-.
    by destruct (first_occurrence_unique _ _ _ _ _ _ Ho Ho') as [_ <-].
  - intros [?|Hl]; [done|].
    rewrite !(identify_not_create _ _ Hc). cbv zeta. by rewrite Hl.
Qed.

Lemma only_list_reads_caller_identity_witness :
  _identify_mcp_tool_and_params "delete task 5" "alice" =
  _identify_mcp_tool_and_params "delete task 5" "bob".
Proof.
  apply (only_list_reads_caller_identity "delete task 5" "alice" "bob").
  right. reflexivity.
Defined.

(** X3: the title of a create request is either the raw input (the fallback)
    or a piece of the lowercased input that neither begins nor ends with white
    space. *)
Theorem create_title_is_trimmed_substring (user_input user_id : string) :
  any_in create_keywords (lower user_input) = true ->
  exists title,
    _identify_mcp_tool_and_params user_input user_id =
      Ret (Some "create_task", Some {[ "title" := VStr title ]}) /\
    (title = user_input \/
     (contains title (lower user_input) = true /\
      not_space_start title = true /\ not_space_end title = true)).
Proof.
  intros Hc.
  destruct (identify_create user_input user_id Hc)
    as (w & pre & post & _ & [E _] & ->).
  eexists. split; [done|].
  destruct (is_empty (clean_title post)); [by left|right].
  split; [|apply clean_title_trimmed].
  eapply contains_trans; [apply contains_clean_title|].
  rewrite E, <- app_assoc. apply contains_suffix.
Qed.

Lemma create_title_is_trimmed_substring_witness :
  exists title,
    _identify_mcp_tool_and_params "  New   Task   Water Plants  " "u1" =
      Ret (Some "create_task", Some {[ "title" := VStr title ]}) /\
    (title = "  New   Task   Water Plants  " \/
     (contains title (lower "  New   Task   Water Plants  ") = true /\
      not_space_start title = true /\ not_space_end title = true)).
Proof.
  apply (create_title_is_trimmed_substring "  New   Task   Water Plants  " "u1").
  reflexivity.
Defined.

(** X4: a task identifier produced by the classifier is an integer and is
    never negative: a minus sign in front of the digits is not read. *)
Theorem task_id_is_never_negative
    (user_input user_id op : string) (params : gmap string value) (v : value) :
  _identify_mcp_tool_and_params user_input user_id = Ret (Some op, Some params) ->
  params !! "task_id" = Some v ->
  exists n : Z, v = VInt n /\ 0 <= n.
Proof.
  intros Hi Hv.
  destruct (identify_result user_input user_id)
    as [(op' & params' & Hi' & _ & _ & _ & Hid & _)|[Hi'|(msg & Hi' & _)]];
    rewrite Hi in Hi'; [|done..].
  injection Hi' as <- <-.
  destruct (Hid v Hv) as (n & -> & Hn & _). by exists n.
Qed.

Lemma task_id_is_never_negative_witness :
  exists n : Z, VInt 5 = VInt n /\ 0 <= n.
Proof.
  apply (task_id_is_never_negative "delete task -5" "u1" "delete_task"
           {[ "task_id" := VInt 5 ]} (VInt 5)).
  - vm_compute. reflexivity.
  - vm_compute. reflexivity.
Defined.

End ClassifierExtras.

(** * Further properties of the dispatcher *)

Section DispatcherExtras.
Import PyStrFacts DispatcherFacts ProcessFacts.

(** X5: whatever the classifier yields can be dispatched: with the session
    token added as [process] does, the dispatcher sends exactly one request,
    and it returns a string whenever the backend answers that request (with a
    JSON body, for a list answered with status 200).  It is never stopped by a
    missing [task_id] or an unknown operation. *)
Theorem classified_operation_is_dispatched
    (BASE : string) (backend : request -> outcome response)
    (user_input user_id : string) (auth_token : option string)
    (op : string) (params : gmap string value) :
  _identify_mcp_tool_and_params user_input user_id = Ret (Some op, Some params) ->
  exists req,
    (forall tr,
       snd (_execute_mcp_tool BASE backend op (with_token auth_token params) tr) =
         tr ++ [HttpCall req]) /\
    (forall tr r,
       backend req = Ret r ->
       (op = "get_tasks" -> status_code r = 200 -> exists j, json r = Ret j) ->
       exists result,
         fst (_execute_mcp_tool BASE backend op (with_token auth_token params) tr) =
           Ret result).
Proof.
  intros Hi.
  destruct (classified_formats_all user_input user_id auth_token op params Hi)
    as (Hk & Hid & Hfmt).
  destruct (request_of_sends BASE op _ Hk Hid Hfmt) as [req Hreq].
  exists req. split.
  - intros tr. by rewrite execute_run, Hreq.
  - intros tr r Hr Hj. rewrite execute_run, Hreq. simpl. rewrite Hr. simpl.
    by apply result_of_response_returns.
Qed.

Lemma classified_operation_is_dispatched_witness :
  exists req,
    (forall tr,
       snd (_execute_mcp_tool local_base (respond created) "update_task"
              (with_token (Some "abc")
                 (<[ "task_id" := VInt 7 ]> {[ "status" := VStr "completed" ]})) tr) =
         tr ++ [HttpCall req]) /\
    (forall tr r,
       respond created req = Ret r ->
       ("update_task" = "get_tasks" -> status_code r = 200 ->
        exists j, json r = Ret j) ->
       exists result,
         fst (_execute_mcp_tool local_base (respond created) "update_task"
                (with_token (Some "abc")
                   (<[ "task_id" := VInt 7 ]> {[ "status" := VStr "completed" ]})) tr) =
           Ret result).
Proof.
  apply (classified_operation_is_dispatched local_base (respond created)
           "mark done 7" "u1" (Some "abc")).
  vm_compute. reflexivity.
Defined.

(** X6: the dispatcher keeps the calls already made and adds at most one
    backend request, never a model call; it adds none exactly when the
    operation is unknown, or is an update or delete without a [task_id], or
    when a value it formats (the session token; the [task_id] for update and
    delete) is an integer beyond the limit of [str]. *)
Theorem dispatcher_sends_at_most_one_request
    (BASE : string) (backend : request -> outcome response)
    (tool_name : string) (params : gmap string value) :
  exists sent,
    (forall tr,
       snd (_execute_mcp_tool BASE backend tool_name params tr) = tr ++ sent) /\
    (sent = [] \/ exists req, sent = [HttpCall req]) /\
    (sent = [] <->
     tool_name ∉ known_operations \/ lacks_task_id tool_name params \/
     format_fails tool_name params).
Proof.
  pose proof (request_of_no_request BASE tool_name params) as Hno.
  destruct (request_of BASE tool_name params) as [[req|]|e] eqn:Hreq.
  - exists [HttpCall req]. split; [|split].
    + intros tr. by rewrite execute_run, Hreq.
    + right. by eexists.
    + split; [done|]. intros H. by destruct (proj2 Hno H req).
  - exists []. split; [|split].
    + intros tr. rewrite execute_run, Hreq. simpl. by rewrite List.app_nil_r.
    + by left.
    + split; [|done]. intros _. by apply (proj1 Hno).
  - exists []. split; [|split].
    + intros tr. rewrite execute_run, Hreq. simpl. by rewrite List.app_nil_r.
    + by left.
    + split; [|done]. intros _. by apply (proj1 Hno).
Qed.

(** X7: what a request of the dispatcher carries.  Its URL begins with the
    base URL followed by [/api/tasks/]; its only headers are [Content-Type],
    always [application/json], and possibly [Authorization]; its JSON body, if
    any, has no key other than [title], [description] and [completed], so the
    session token, the caller identity, the task identifier and the status
    never travel in the body; and there is no body exactly for GET and
    DELETE. *)
Theorem request_carries_task_data_only
    (BASE : string) (backend : request -> outcome response)
    (tool_name : string) (params : gmap string value) (req : request) :
  HttpCall req ∈ snd (_execute_mcp_tool BASE backend tool_name params []) ->
  startswith (BASE +:+ "/api/tasks/") (url req) = true /\
  headers req !! "Content-Type" = Some "application/json" /\
  (forall k, k <> "Content-Type" -> k <> "Authorization" ->
     headers req !! k = None) /\
  (forall body k, json_body req = Some body ->
     k <> "title" -> k <> "description" -> k <> "completed" ->
     body !! k = None) /\
  (json_body req = None <-> method req = GET \/ method req = DELETE).
Proof.
  rewrite execute_run.
  destruct (request_of BASE tool_name params) as [[req0|]|e] eqn:Hreq; simpl.
  2,3: intros H; by apply elem_of_nil in H.
  intros [= ->]%list_elem_of_singleton.
  destruct (request_of_Some _ _ _ _ Hreq) as [Hh Hcases].
  assert (forall t, startswith (BASE +:+ "/api/tasks/") (BASE +:+ "/api/tasks/" +:+ t)
                    = true) as Hurl.
  { intros t. rewrite <- app_assoc. apply startswith_app. }
  assert (startswith (BASE +:+ "/api/tasks/") (BASE +:+ "/api/tasks/") = true)
    as Hurl0.
  { rewrite <- (app_nil_r (BASE +:+ "/api/tasks/")) at 2. apply startswith_app. }
  split; [|split; [by eapply request_headers_content_type|
           split; [intros k; by eapply request_headers_keys|]]].
  - destruct Hcases as [(_ & _ & -> & _)|[(_ & _ & -> & _)|
      [(_ & v & s & _ & _ & _ & -> & _)|(_ & v & s & _ & _ & _ & -> & _)]]];
      done.
  - destruct Hcases as [(_ & Hm & _ & Hb)|[(_ & Hm & _ & Hb)|
      [(_ & v & s & _ & _ & Hm & _ & Hb)|(_ & v & s & _ & _ & Hm & _ & Hb)]]];
      rewrite Hm, Hb.
    + split.
      * intros body k [= <-] H1 H2 H3.
        by rewrite lookup_insert_ne, lookup_singleton_ne.
      * split; [done|]. by intros [|].
    + split; [by intros body k [=]|]. split; [by left|done].
    + split.
      * intros body k [= <-]. apply update_body_keys.
      * split; [done|]. by intros [|].
    + split; [by intros body k [=]|]. split; [by right|done].
Qed.

Lemma request_carries_task_data_only_witness :
  HttpCall token_request ∈
    snd (_execute_mcp_tool local_base (respond created) "create_task"
           token_params []) /\
  startswith (local_base +:+ "/api/tasks/") (url token_request) = true /\
  headers token_request !! "Content-Type" = Some "application/json" /\
  (forall k, k <> "Content-Type" -> k <> "Authorization" ->
     headers token_request !! k = None) /\
  (forall body k, json_body token_request = Some body ->
     k <> "title" -> k <> "description" -> k <> "completed" ->
     body !! k = None) /\
  (json_body token_request = None <->
   method token_request = GET \/ method token_request = DELETE).
Proof.
  assert (snd (_execute_mcp_tool local_base (respond created) "create_task"
                 token_params []) = [HttpCall token_request]) as Hrun.
  { vm_compute. reflexivity. }
  assert (HttpCall token_request ∈
            snd (_execute_mcp_tool local_base (respond created) "create_task"
                   token_params [])) as Hin.
  { rewrite Hrun. apply list_elem_of_here. }
  split; [exact Hin|].
  exact (request_carries_task_data_only local_base (respond created)
           "create_task" token_params token_request Hin).
Defined.

(** X8: the result of a list request.  With status 200 the body is decoded as
    JSON: if decoding raises, the dispatcher raises the same exception; if the
    decoded value is falsy (an empty list or object, null, false, zero, an
    empty string) the result is the no-tasks message; otherwise it is the raw
    body text.  With any other status the result is the raw body text and the
    body is not decoded. *)
Theorem list_result_follows_status_and_body
    (BASE : string) (backend : request -> outcome response)
    (params : gmap string value) (req : request) (r : response)
    (res : outcome string) :
  _execute_mcp_tool BASE backend "get_tasks" params [] = (res, [HttpCall req]) ->
  backend req = Ret r ->
  res = (if status_code r =? 200 then
           match json r with
           | Ret tasks =>
               Ret (if json_truthy tasks then text r
                    else "No tasks found for you. Feel free to add one!")
           | Raise e => Raise e
           end
         else Ret (text r)).
Proof.
  rewrite execute_run.
  destruct (request_of BASE "get_tasks" params) as [[req0|]|e] eqn:Hreq.
  - intros [= <- ->] Hr. rewrite Hr. simpl. unfold result_of_response.
    rewrite decide_True by done. by destruct (status_code r =? 200), (json r).
  - intros [=].
  - intros [=].
Qed.

Lemma list_result_follows_status_and_body_witness :
  Ret "No tasks found for you. Feel free to add one!" =
    (if status_code empty_list =? 200 then
       match json empty_list with
       | Ret tasks =>
           Ret (if json_truthy tasks then text empty_list
                else "No tasks found for you. Feel free to add one!")
       | Raise e => Raise e
       end
     else Ret (text empty_list)).
Proof.
  apply (list_result_follows_status_and_body local_base (respond empty_list)
           ∅ list_request empty_list).
  - vm_compute. reflexivity.
  - reflexivity.
Defined.

(** X9: the dispatcher reads only the parameters of its operation (the
    session token; title and description for create and update; the task
    identifier for update and delete): two parameter mappings that agree on
    them give the same request, the same result and the same calls.  In
    particular the caller identity and the status never matter. *)
Theorem dispatcher_reads_only_its_parameters
    (BASE : string) (backend : request -> outcome response)
    (tool_name : string) (p q : gmap string value) (tr : list event) :
  (forall k, k ∈ relevant_keys tool_name -> p !! k = q !! k) ->
  _execute_mcp_tool BASE backend tool_name p tr =
  _execute_mcp_tool BASE backend tool_name q tr.
Proof.
  intros H. by rewrite !execute_run, (request_of_ext BASE tool_name p q H).
Qed.

Lemma dispatcher_reads_only_its_parameters_witness :
  _execute_mcp_tool local_base (respond created) "get_tasks"
    {[ "user_id" := VStr "alice" ]} [] =
  _execute_mcp_tool local_base (respond created) "get_tasks"
    {[ "user_id" := VStr "bob" ]} [].
Proof.
  apply (dispatcher_reads_only_its_parameters local_base (respond created)
           "get_tasks" {[ "user_id" := VStr "alice" ]} {[ "user_id" := VStr "bob" ]}).
  intros k Hk. apply list_elem_of_singleton in Hk as ->. reflexivity.
Defined.

End DispatcherExtras.

(** * Further properties of the orchestrator and of the entry point *)

Section ProcessExtras.
Import PyStrFacts NumeralFacts ClassifierFacts DispatcherFacts ProcessFacts.

(** X10: the external calls of one invocation of the entry point.  It keeps
    the calls already made and adds nothing, or the model call alone (chat
    path), or one backend request followed by the model call, or one backend
    request alone; the model is always asked under the fixed model name.  A
    backend request alone means that the dispatcher raised after sending: the
    model is then not asked and the reply is the apology.  No call at all
    means that the classifier raised the [ValueError] of [int]: the reply is
    then the apology for it. *)
Theorem entry_point_call_discipline
    (BASE : string) (backend : request -> outcome response)
    (llm : string -> string -> outcome string) (user_input : string)
    (history : list (gmap string string)) (user_id : string)
    (conversation_id auth_token : option string) (tr : list event) :
  exists sent,
    snd (process_user_input BASE backend llm user_input history user_id
           conversation_id auth_token tr) = tr ++ sent /\
    calls_of_process sent /\
    (forall req, sent = [HttpCall req] ->
       exists e,
         fst (process_user_input BASE backend llm user_input history user_id
                conversation_id auth_token tr) = (apology e, [])) /\
    (sent = [] ->
       exists msg,
         _identify_mcp_tool_and_params user_input user_id =
           Raise (ValueError msg) /\
         first_run_fits user_input = false /\
         fst (process_user_input BASE backend llm user_input history user_id
                conversation_id auth_token tr) = (apology (ValueError msg), [])).
Proof.
  unfold process_user_input.
  destruct (identify_result user_input user_id)
    as [(op & params & Hi & _)|[Hi|(msg & Hi & Hfit)]].
  - destruct (process_run_tool BASE backend llm user_input history user_id
                conversation_id auth_token op params Hi) as (req & _ & ->).
    destruct (obind (backend req) (result_of_response op)) as [res|e].
    + eexists. split; [done|]. split; [constructor|].
      split; [by intros req' [=]|by intros [=]].
    + eexists. split; [done|]. split; [constructor|].
      split; [|by intros [=]]. intros _ _. by eexists.
  - rewrite (process_run_chat _ _ _ _ _ _ _ _ _ Hi).
    eexists. split; [done|]. split; [constructor|].
    split; [by intros req' [=]|by intros [=]].
  - rewrite (process_run_raise _ _ _ _ _ _ _ _ _ _ Hi).
    exists []. split; [by rewrite List.app_nil_r|]. split; [constructor|].
    split; [by intros req' [=]|]. intros _. by exists msg.
Qed.

(** X11: for an input whose first run of digits, if any, has at most 4300
    digits: when the backend answers every request with a response whose body
    is JSON and the model answers every prompt, the entry point never falls
    back to the apology: its reply is the model's answer to the last call
    made, a prompt that quotes the user's text as it is. *)
Theorem entry_point_relays_model_reply
    (BASE : string) (backend : request -> outcome response)
    (llm : string -> string -> outcome string) (user_input : string)
    (history : list (gmap string string)) (user_id : string)
    (conversation_id auth_token : option string) (tr : list event) :
  first_run_fits user_input = true ->
  (forall req, exists r j, backend req = Ret r /\ json r = Ret j) ->
  (forall model prompt, exists content, llm model prompt = Ret content) ->
  exists prompt content,
    llm MODEL_NAME prompt = Ret content /\
    fst (fst (process_user_input BASE backend llm user_input history user_id
                conversation_id auth_token tr)) = content /\
    last (snd (process_user_input BASE backend llm user_input history user_id
                 conversation_id auth_token tr)) =
      Some (ModelCall MODEL_NAME prompt) /\
    contains user_input prompt = true.
Proof.
  intros Hfit Hb Hm. unfold process_user_input.
  destruct (identify_result user_input user_id)
    as [(op & params & Hi & _)|[Hi|(msg & _ & Hno)]]; [| |congruence].
  - destruct (process_run_tool BASE backend llm user_input history user_id
                conversation_id auth_token op params Hi) as (req & _ & ->).
    destruct (Hb req) as (r & j & -> & Hj). simpl obind.
    destruct (result_of_response_returns op r) as [res ->]; [by eauto|].
    destruct (Hm MODEL_NAME (tool_prompt user_input res)) as [content Hc].
    exists (tool_prompt user_input res), content. rewrite Hc.
    split; [done|]. split; [done|]. split; [|apply tool_prompt_quotes_input].
    simpl snd. change [HttpCall req; ModelCall MODEL_NAME (tool_prompt user_input res)]
      with ([HttpCall req] ++ [ModelCall MODEL_NAME (tool_prompt user_input res)]).
    by rewrite List.app_assoc, last_snoc.
  - rewrite (process_run_chat _ _ _ _ _ _ _ _ _ Hi).
    destruct (Hm MODEL_NAME (chat_prompt user_input)) as [content Hc].
    exists (chat_prompt user_input), content. rewrite Hc.
    split; [done|]. split; [done|]. split; [|apply chat_prompt_quotes_input].
    simpl snd. by rewrite last_snoc.
Qed.

Lemma entry_point_relays_model_reply_witness :
  exists prompt content,
    model_says "Done." MODEL_NAME prompt = Ret content /\
    fst (fst (process_user_input local_base (respond created) (model_says "Done.")
                "delete task 12" [] "u1" None None [])) = content /\
    last (snd (process_user_input local_base (respond created) (model_says "Done.")
                 "delete task 12" [] "u1" None None [])) =
      Some (ModelCall MODEL_NAME prompt) /\
    contains "delete task 12" prompt = true.
Proof.
  apply (entry_point_relays_model_reply local_base (respond created)
           (model_says "Done.") "delete task 12" [] "u1" None None []).
  - reflexivity.
  - intros req. exists created, (JObj []). split; reflexivity.
  - intros model prompt. exists "Done.". reflexivity.
Defined.

(** X12: a create request posts what was classified: the first call is a POST
    to the tasks collection whose body is the classified title with an empty
    description, with the caller's token as bearer credential when it is given
    and not empty. *)
Theorem create_posts_classified_title
    (BASE : string) (backend : request -> outcome response)
    (llm : string -> string -> outcome string) (user_input : string)
    (history : list (gmap string string)) (user_id : string)
    (conversation_id auth_token : option string) (tr : list event) :
  any_in create_keywords (lower user_input) = true ->
  exists title req rest,
    _identify_mcp_tool_and_params user_input user_id =
      Ret (Some "create_task", Some {[ "title" := VStr title ]}) /\
    snd (process_user_input BASE backend llm user_input history user_id
           conversation_id auth_token tr) = tr ++ HttpCall req :: rest /\
    method req = POST /\
    url req = BASE +:+ "/api/tasks/" /\
    json_body req = Some (<[ "title" := VStr title ]>
                          {[ "description" := VStr EmptyString ]}) /\
    headers req !! "Authorization" = bearer auth_token.
Proof.
  intros Hc. unfold process_user_input.
  destruct (identify_create user_input user_id Hc) as (w & pre & post & _ & _ & Hi).
  destruct (process_run_tool BASE backend llm user_input history user_id
              conversation_id auth_token _ _ Hi) as (req & Hreq & ->).
  destruct (request_of_Some _ _ _ _ Hreq)
    as [Hh [(_ & Hm & Hurl & Hb)|[(E & _)|[(E & _)|(E & _)]]]];
    try discriminate E.
  pose proof (with_token_authorization _ _ _ Hh) as Hauth.
  unfold with_token in Hb.
  rewrite lookup_insert_ne, lookup_singleton_eq, lookup_insert_ne,
    lookup_singleton_ne in Hb by done.
  do 2 eexists.
  destruct (obind _ _) as [res|e]; eexists;
    (split; [exact Hi|]); (split; [done|]); (split; [done|]); (split; [done|]);
    (split; [exact Hb|exact Hauth]).
Qed.

Lemma create_posts_classified_title_witness :
  exists title req rest,
    _identify_mcp_tool_and_params "Add Buy Milk" "u1" =
      Ret (Some "create_task", Some {[ "title" := VStr title ]}) /\
    snd (process_user_input local_base (respond created) (model_says "Done.")
           "Add Buy Milk" [] "u1" None (Some "abc") []) =
      [] ++ HttpCall req :: rest /\
    method req = POST /\
    url req = local_base +:+ "/api/tasks/" /\
    json_body req = Some (<[ "title" := VStr title ]>
                          {[ "description" := VStr EmptyString ]}) /\
    headers req !! "Authorization" = bearer (Some "abc").
Proof.
  apply (create_posts_classified_title local_base (respond created)
           (model_says "Done.") "Add Buy Milk" [] "u1" None (Some "abc") []).
  reflexivity.
Defined.

(** X13: for an input whose first run of digits, if any, has at most 4300
    digits, an update request marks the task completed and nothing else: the
    first call is a PUT whose URL ends with the decimal numeral of the
    classified identifier (a non-empty string of digits without a superfluous
    leading zero, which [int] reads back as that identifier, so the leading
    zeros of the input are gone) and whose body is exactly [completed: true];
    the status [completed] of the classification is not sent. *)
Theorem update_marks_completed_only
    (BASE : string) (backend : request -> outcome response)
    (llm : string -> string -> outcome string) (user_input : string)
    (history : list (gmap string string)) (user_id : string)
    (conversation_id auth_token : option string) (tr : list event) :
  any_in create_keywords (lower user_input) = false ->
  wants_list (lower user_input) = false ->
  any_in delete_keywords (lower user_input) = false ->
  any_in update_keywords (lower user_input) = true ->
  first_run_fits user_input = true ->
  exists (n : Z) (numeral : string) req rest,
    extracted_id user_input n /\
    all_digits numeral = true /\ numeral <> EmptyString /\
    no_leading_zero numeral = true /\ int numeral = Ret n /\
    snd (process_user_input BASE backend llm user_input history user_id
           conversation_id auth_token tr) = tr ++ HttpCall req :: rest /\
    method req = PUT /\
    url req = BASE +:+ "/api/tasks/" +:+ numeral /\
    json_body req = Some {[ "completed" := VBool true ]} /\
    headers req !! "Authorization" = bearer auth_token.
Proof.
  intros Hc Hl Hd Hu Hfit. unfold process_user_input.
  destruct (first_id_cases user_input)
    as [(_ & n & Hn & He & Hpos & _)|[Hf _]]; [|congruence].
  pose proof (identify_not_create user_input user_id Hc) as Hi.
  cbv zeta in Hi. rewrite Hl, Hd, Hu, Hn in Hi. unfold obind in Hi.
  destruct (process_run_tool BASE backend llm user_input history user_id
              conversation_id auth_token _ _ Hi) as (req & Hreq & ->).
  destruct (request_of_Some _ _ _ _ Hreq)
    as [Hh [(E & _)|[(E & _)|[(_ & v & numeral & Hv & Hs & Hm & Hurl & Hb)|(E & _)]]]];
    try discriminate E.
  pose proof (with_token_authorization _ _ _ Hh) as Hauth.
  unfold with_token in Hv.
  rewrite lookup_insert_ne, lookup_insert_eq in Hv by done. injection Hv as <-.
  destruct (str_int_roundtrip n numeral Hpos Hs) as (Hval & Hdig & Hne & Hlz & Hlen).
  assert (int numeral = Ret n) as Hint.
  { unfold int.
    destruct (Nat.ltb_spec int_max_str_digits (String.length numeral)); [lia|].
    by rewrite Hval. }
  assert (json_body req = Some {[ "completed" := VBool true ]}) as Hbody.
  { rewrite Hb. unfold update_body, with_token.
    by rewrite !lookup_insert_ne, !lookup_singleton_ne. }
  exists n, numeral, req.
  destruct (obind _ _) as [res|e]; eexists;
    (split; [exact He|]); (split; [exact Hdig|]); (split; [exact Hne|]);
    (split; [exact Hlz|]); (split; [exact Hint|]); (split; [done|]);
    (split; [exact Hm|]); (split; [exact Hurl|]); (split; [exact Hbody|exact Hauth]).
Qed.

Lemma update_marks_completed_only_witness :
  exists (n : Z) (numeral : string) req rest,
    extracted_id "mark task 007 as done" n /\
    all_digits numeral = true /\ numeral <> EmptyString /\
    no_leading_zero numeral = true /\ int numeral = Ret n /\
    snd (process_user_input local_base (respond created) (model_says "Done.")
           "mark task 007 as done" [] "u1" None None []) =
      [] ++ HttpCall req :: rest /\
    method req = PUT /\
    url req = local_base +:+ "/api/tasks/" +:+ numeral /\
    json_body req = Some {[ "completed" := VBool true ]} /\
    headers req !! "Authorization" = bearer None.
Proof.
  apply (update_marks_completed_only local_base (respond created)
           (model_says "Done.") "mark task 007 as done" [] "u1" None None []);
    reflexivity.
Defined.

(** X14: for an input whose first run of digits, if any, has at most 4300
    digits, a delete request addresses the classified task: the first call is
    a DELETE without a body whose URL ends with the decimal numeral of the
    classified identifier, a non-empty string of digits without a superfluous
    leading zero, which [int] reads back as that identifier. *)
Theorem delete_addresses_classified_task
    (BASE : string) (backend : request -> outcome response)
    (llm : string -> string -> outcome string) (user_input : string)
    (history : list (gmap string string)) (user_id : string)
    (conversation_id auth_token : option string) (tr : list event) :
  any_in create_keywords (lower user_input) = false ->
  wants_list (lower user_input) = false ->
  any_in delete_keywords (lower user_input) = true ->
  first_run_fits user_input = true ->
  exists (n : Z) (numeral : string) req rest,
    extracted_id user_input n /\
    all_digits numeral = true /\ numeral <> EmptyString /\
    no_leading_zero numeral = true /\ int numeral = Ret n /\
    snd (process_user_input BASE backend llm user_input history user_id
           conversation_id auth_token tr) = tr ++ HttpCall req :: rest /\
    method req = DELETE /\
    url req = BASE +:+ "/api/tasks/" +:+ numeral /\
    json_body req = None /\
    headers req !! "Authorization" = bearer auth_token.
Proof.
  intros Hc Hl Hd Hfit. unfold process_user_input.
  destruct (first_id_cases user_input)
    as [(_ & n & Hn & He & Hpos & _)|[Hf _]]; [|congruence].
  pose proof (identify_not_create user_input user_id Hc) as Hi.
  cbv zeta in Hi. rewrite Hl, Hd, Hn in Hi. unfold obind in Hi.
  destruct (process_run_tool BASE backend llm user_input history user_id
              conversation_id auth_token _ _ Hi) as (req & Hreq & ->).
  destruct (request_of_Some _ _ _ _ Hreq)
    as [Hh [(E & _)|[(E & _)|[(E & _)|(_ & v & numeral & Hv & Hs & Hm & Hurl & Hb)]]]];
    try discriminate E.
  pose proof (with_token_authorization _ _ _ Hh) as Hauth.
  unfold with_token in Hv.
  rewrite lookup_insert_ne, lookup_singleton_eq in Hv by done. injection Hv as <-.
  destruct (str_int_roundtrip n numeral Hpos Hs) as (Hval & Hdig & Hne & Hlz & Hlen).
  assert (int numeral = Ret n) as Hint.
  { unfold int.
    destruct (Nat.ltb_spec int_max_str_digits (String.length numeral)); [lia|].
    by rewrite Hval. }
  exists n, numeral, req.
  destruct (obind _ _) as [res|e]; eexists;
    (split; [exact He|]); (split; [exact Hdig|]); (split; [exact Hne|]);
    (split; [exact Hlz|]); (split; [exact Hint|]); (split; [done|]);
    (split; [exact Hm|]); (split; [exact Hurl|]); (split; [exact Hb|exact Hauth]).
Qed.

Lemma delete_addresses_classified_task_witness :
  exists (n : Z) (numeral : string) req rest,
    extracted_id "please remove item 0042" n /\
    all_digits numeral = true /\ numeral <> EmptyString /\
    no_leading_zero numeral = true /\ int numeral = Ret n /\
    snd (process_user_input local_base unreachable (model_says "Done.")
           "please remove item 0042" [] "u1" None (Some "abc") []) =
      [] ++ HttpCall req :: rest /\
    method req = DELETE /\
    url req = local_base +:+ "/api/tasks/" +:+ numeral /\
    json_body req = None /\
    headers req !! "Authorization" = bearer (Some "abc").
Proof.
  apply (delete_addresses_classified_task local_base unreachable
           (model_says "Done.") "please remove item 0042" [] "u1" None
           (Some "abc") []); reflexivity.
Defined.

(** X15: the caller identity never leaves the process: for two callers that
    send the same text with the same token, the reply and the external calls
    (the backend request and the model prompt) are the same; only the record
    of the tool call returned to the caller can differ. *)
Theorem caller_identity_never_leaves_process
    (BASE : string) (backend : request -> outcome response)
    (llm : string -> string -> outcome string) (user_input : string)
    (history : list (gmap string string)) (user_id user_id' : string)
    (conversation_id auth_token : option string) (tr : list event) :
  fst (fst (process_user_input BASE backend llm user_input history user_id
              conversation_id auth_token tr)) =
  fst (fst (process_user_input BASE backend llm user_input history user_id'
              conversation_id auth_token tr)) /\
  snd (process_user_input BASE backend llm user_input history user_id
         conversation_id auth_token tr) =
  snd (process_user_input BASE backend llm user_input history user_id'
         conversation_id auth_token tr).
Proof.
  unfold process_user_input.
  destruct (decide (any_in create_keywords (lower user_input) = true \/
                    wants_list (lower user_input) = false)) as [Hoff|Hlist].
  - unfold process, process_try.
    by rewrite (identify_off_list user_input user_id user_id' Hoff).
  - assert (any_in create_keywords (lower user_input) = false) as Hc.
    { destruct (any_in create_keywords _); [|done]. destruct Hlist. by left. }
    assert (wants_list (lower user_input) = true) as Hl.
    { destruct (wants_list _); [done|]. destruct Hlist. by right. }
    pose proof (identify_not_create user_input user_id Hc) as Hi.
    pose proof (identify_not_create user_input user_id' Hc) as Hi'.
    cbv zeta in Hi, Hi'. rewrite Hl in Hi, Hi'.
    destruct (process_run_tool BASE backend llm user_input history user_id
                conversation_id auth_token _ _ Hi) as (req & Hreq & ->).
    destruct (process_run_tool BASE backend llm user_input history user_id'
                conversation_id auth_token _ _ Hi') as (req' & Hreq' & ->).
    assert (req' = req) as ->.
    { rewrite (request_of_ext BASE "get_tasks" _
                 (with_token auth_token {[ "user_id" := VStr user_id' ]})) in Hreq.
      - congruence.
      - intros k Hk. apply list_elem_of_singleton in Hk as ->.
        unfold with_token. by rewrite !lookup_insert_eq. }
    destruct (obind _ _) as [res|e]; [|done].
    by destruct (llm _ _).
Qed.

(** X16: a failure of the model call hides a request that was performed: when
    the classifier yields an operation, the backend answers (with a JSON body)
    and the model call raises, the backend request has been sent all the same,
    yet the entry point returns the apology with an empty list of tool
    calls. *)
Theorem model_failure_hides_performed_request
    (BASE : string) (backend : request -> outcome response)
    (llm : string -> string -> outcome string) (user_input : string)
    (history : list (gmap string string)) (user_id : string)
    (conversation_id auth_token : option string) (tr : list event)
    (op : string) (params : gmap string value) (e : exn) :
  _identify_mcp_tool_and_params user_input user_id = Ret (Some op, Some params) ->
  (forall req, exists r j, backend req = Ret r /\ json r = Ret j) ->
  (forall prompt, llm MODEL_NAME prompt = Raise e) ->
  exists req prompt,
    process_user_input BASE backend llm user_input history user_id
      conversation_id auth_token tr =
    ((apology e, []), tr ++ [HttpCall req; ModelCall MODEL_NAME prompt]).
Proof.
  intros Hi Hb Hm. unfold process_user_input.
  destruct (process_run_tool BASE backend llm user_input history user_id
              conversation_id auth_token op params Hi) as (req & _ & ->).
  destruct (Hb req) as (r & j & -> & Hj). simpl obind.
  destruct (result_of_response_returns op r) as [res ->]; [by eauto|].
  rewrite Hm. by do 2 eexists.
Qed.

Lemma model_failure_hides_performed_request_witness :
  exists req prompt,
    process_user_input local_base (respond created) model_down "add milk" []
      "u1" None None [] =
    ((apology (ExternalError "Connection error."), []),
     [] ++ [HttpCall req; ModelCall MODEL_NAME prompt]).
Proof.
  apply (model_failure_hides_performed_request local_base (respond created)
           model_down "add milk" [] "u1" None None [] "create_task"
           {[ "title" := VStr "milk" ]} (ExternalError "Connection error.")).
  - vm_compute. reflexivity.
  - intros req. exists created, (JObj []). split; reflexivity.
  - intros prompt. reflexivity.
Defined.

End ProcessExtras.
